(** * python-athena.py: polling an Athena query execution

    A shallow embedding of [src/python-athena.py]: the [Partition],
    [QueryExecution] and [AthenaClient] classes, with the remote Athena
    service and [time.sleep] made explicit as a trace of events. *)

From Stdlib Require Import ZArith List String Ascii Bool Lia.
From Stdlib Require Import DecimalString DecimalPos.
Import ListNotations.
Open Scope string_scope.
Open Scope Z_scope.

(** ** Python values and exceptions *)

(** The exceptions the program can raise: the ones it raises itself
    ([Exception(msg)]) and the ones raised by list indexing, dict lookup and
    [int()]. *)
Inductive PyExc : Type :=
| Exception (msg : string)
| IndexError (msg : string)
| KeyError (key : string)
| ValueError (msg : string).

(** The double-quote character and the string made of it. *)
Definition dquote_char : ascii := ascii_of_nat 34.
Definition dquote : string := String dquote_char EmptyString.

(** [str(n)] for a Python [int]. *)
Definition str_int (n : Z) : string := NilZero.string_of_int (Z.to_int n).

(** [template.format(args...)] for templates whose only replacement fields are
    the automatically numbered [{}]; every template of the source is of that
    form.  A field that finds no argument left is an [IndexError] in Python;
    here it is dropped, which no call of the source reaches. *)
Fixpoint format (template : string) (args : list string) : string :=
  match template with
  | EmptyString => EmptyString
  | String "{"%char (String "}"%char rest) =>
      match args with
      | a :: args' => a ++ format rest args'
      | [] => format rest []
      end
  | String c rest => String c (format rest args)
  end.

(** [glue.join(parts)]. *)
Fixpoint join (glue : string) (parts : list string) : string :=
  match parts with
  | [] => EmptyString
  | [p] => p
  | p :: ps => p ++ glue ++ join glue ps
  end.

(** ** The remote service and the world *)

(** The ['Status'] entry of a [get_query_execution] response: ['State'] is
    always present, ['StateChangeReason'] may be missing. *)
Record Status : Type := mkStatus {
  State : string;
  StateChangeReason : option string
}.

(** A cell of a result row: a dict that may carry ['VarCharValue']. *)
Record Datum : Type := mkDatum { VarCharValue : option string }.

(** A result row: the ['Data'] list of its cells. *)
Record Row : Type := mkRow { Data : list Datum }.

(** The response of [get_query_results]: ['ResultSet']['Rows']. *)
Record QueryResults : Type := mkQueryResults { Rows : list Row }.

(** What the program does to the outside world, in the order it does it. *)
Inductive Event : Type :=
| EvStart (query database output_location : string)
| EvStatus (query_execution_id : string)
| EvResults (query_execution_id : string)
| EvSleep (seconds : Z).

Definition World : Type := list Event.

Definition is_status (e : Event) : bool :=
  match e with EvStatus _ => true | _ => false end.
Definition is_sleep (e : Event) : bool :=
  match e with EvSleep _ => true | _ => false end.
Definition is_start (e : Event) : bool :=
  match e with EvStart _ _ _ => true | _ => false end.
Definition is_results (e : Event) : bool :=
  match e with EvResults _ => true | _ => false end.

(** Number of [get_query_execution] calls, of [sleep] calls, of
    [start_query_execution] calls and of [get_query_results] calls made so
    far, and the seconds slept so far. *)
Definition status_calls (w : World) : nat := List.length (filter is_status w).
Definition sleeps (w : World) : nat := List.length (filter is_sleep w).
Definition start_calls (w : World) : nat := List.length (filter is_start w).
Definition results_calls (w : World) : nat := List.length (filter is_results w).
Definition slept_seconds (w : World) : Z :=
  fold_right (fun e acc => match e with EvSleep s => s + acc | _ => acc end) 0 w.

(** The boto3 Athena client.  The service is deterministic: what a call
    answers depends on its arguments and on how many calls of its kind were
    answered before it.  Every call answers: errors of the transport are
    not part of the model. *)
Record BaseClient : Type := mkBaseClient {
  start_query_execution : nat -> string -> string -> string -> string;
  get_query_execution : nat -> string -> Status;
  get_query_results : nat -> string -> QueryResults
}.

(** ** Computations: state and exceptions *)

(** A computation over a state [S] ends with a value or a raised exception;
    the state survives the exception. *)
Definition M (S A : Type) : Type := S -> (PyExc + A) * S.

Definition ret {S A} (a : A) : M S A := fun s => (inr a, s).
Definition raise {S A} (e : PyExc) : M S A := fun s => (inl e, s).
Definition bind {S A B} (m : M S A) (f : A -> M S B) : M S B :=
  fun s => match m s with
           | (inr a, s') => f a s'
           | (inl e, s') => (inl e, s')
           end.

Notation "x <- m ;; k" := (bind m (fun x => k))
  (at level 61, m at next level, right associativity).
Notation "m ;;; k" := (bind m (fun _ => k))
  (at level 61, right associativity).

(** ** class QueryExecution *)

Record QueryExecution : Type := mkQueryExecution {
  client : BaseClient;
  query_execution_id : string;
  waited : bool
}.

Definition QueryExecution_init (c : BaseClient) (id : string) : QueryExecution :=
  {| client := c; query_execution_id := id; waited := false |}.

(** Methods of a handle run over the handle itself and the world. *)
Definition HM (A : Type) : Type := M (QueryExecution * World) A.

Definition self : HM QueryExecution := fun s => (inr (fst s), s).

Definition set_waited (b : bool) : HM unit :=
  fun s => (inr tt,
            ({| client := client (fst s);
                query_execution_id := query_execution_id (fst s);
                waited := b |}, snd s)).

(** [self.client.get_query_execution(QueryExecutionId=...)['QueryExecution']['Status']] *)
Definition call_get_query_execution : HM Status :=
  fun s =>
    let id := query_execution_id (fst s) in
    (inr (get_query_execution (client (fst s)) (status_calls (snd s)) id),
     (fst s, (snd s ++ [EvStatus id])%list)).

(** [self.client.get_query_results(QueryExecutionId=...)] *)
Definition call_get_query_results : HM QueryResults :=
  fun s =>
    let id := query_execution_id (fst s) in
    (inr (get_query_results (client (fst s)) (results_calls (snd s)) id),
     (fst s, (snd s ++ [EvResults id])%list)).

Definition sleep (seconds : Z) : HM unit :=
  fun s => (inr tt, (fst s, (snd s ++ [EvSleep seconds])%list)).

(** [status.get('StateChangeReason', 'No reason is given.')] *)
Definition reason_of (status : Status) : string :=
  match StateChangeReason status with
  | Some r => r
  | None => "No reason is given."
  end.

Definition failed_message (id reason : string) : string :=
  format "Athena execution {} is failed. {}" [id; reason].
Definition canceled_message (id reason : string) : string :=
  format "Athena execution {} is canceled. {}" [id; reason].
Definition timeout_message (id : string) (timeout : Z) : string :=
  format "Athena execution {} is not processed in {} seconds." [id; str_int timeout].

(** The body of [for i in range(timeout)] from iteration [i] on, with [n]
    iterations left, followed by the [raise] after the loop. *)
Fixpoint wait_loop (timeout : Z) (n : nat) (i : Z) : HM unit :=
  match n with
  | O =>
      h <- self ;;
      raise (Exception (timeout_message (query_execution_id h) timeout))
  | S n' =>
      h <- self ;;
      status <- call_get_query_execution ;;
      let state := State status in
      let reason := reason_of status in
      if state =? "FAILED" then
        raise (Exception (failed_message (query_execution_id h) reason))
      else if state =? "CANCELLED" then
        raise (Exception (canceled_message (query_execution_id h) reason))
      else if state =? "SUCCEEDED" then
        set_waited true
      else
        (if negb (i =? timeout - 1)%Z then sleep 1 else ret tt) ;;;
        wait_loop timeout n' (i + 1)
  end%string.

Definition wait (timeout : Z) : HM unit :=
  h <- self ;;
  if waited h then ret tt
  else wait_loop timeout (Z.to_nat timeout) 0.

Definition get_result (timeout : Z) : HM QueryResults :=
  wait timeout ;;;
  call_get_query_results.

(** ** class Partition *)

(** A [datetime.date]. *)
Record date : Type := mkDate { year : Z; month : Z; day : Z }.

(** [str(n).zfill(width)] for a number that is not negative. *)
Definition zfill (width : nat) (n : Z) : string :=
  let s := str_int n in
  string_of_list_ascii (repeat "0"%char (width - String.length s)) ++ s.

(** [date.isoformat()], which is also [str(d)] and [format(d, '')]. *)
Definition isoformat (d : date) : string :=
  zfill 4 (year d) ++ "-" ++ zfill 2 (month d) ++ "-" ++ zfill 2 (day d).

(** The values a partition holds: a [date] or a [str]. *)
Inductive PyVal : Type :=
| VDate (d : date)
| VStr (s : string).

(** What a [{}] field of [str.format] renders a value as. *)
Definition str_val (v : PyVal) : string :=
  match v with
  | VDate d => isoformat d
  | VStr s => s
  end.

(** A dict in insertion order, which is the order [items()] yields. *)
Record Partition : Type := mkPartition { partitions : list (string * PyVal) }.

Definition Partition_init (created_at : date) (type : string) : Partition :=
  {| partitions := [("created_at", VDate created_at); ("type", VStr type)] |}.

Definition implode (self : Partition) (template glue : string) : string :=
  join glue (map (fun kv => format template [fst kv; str_val (snd kv)])
                 (partitions self)).

(** ** class AthenaClient *)

Definition TABLE_NAME : string := "athena_table_name".

Record AthenaClient : Type := mkAthenaClient {
  athena_client : BaseClient;
  db_name : string;
  s3_bucket : string;
  output_location : string
}.

(** [__init__], with [boto3.client] as the ambient factory of clients. *)
Definition AthenaClient_init (boto3_client : string -> BaseClient)
    (db_name s3_bucket output_location : string) : AthenaClient :=
  {| athena_client := boto3_client "athena";
     db_name := db_name;
     s3_bucket := s3_bucket;
     output_location := output_location |}.

(** Methods of the client only change the world. *)
Definition CM (A : Type) : Type := M World A.

(** A method call on a handle that the caller does not keep. *)
Definition on_handle {A} (h : QueryExecution) (m : HM A) : CM A :=
  fun w => let '(r, (_, w')) := m (h, w) in (r, w').

Definition execute (self : AthenaClient) (query : string) : CM QueryExecution :=
  fun w =>
    let query_execution_id :=
      start_query_execution (athena_client self) (start_calls w)
        query (db_name self) (output_location self) in
    (inr (QueryExecution_init (athena_client self) query_execution_id),
     (w ++ [EvStart query (db_name self) (output_location self)])%list).

(** The statement [add_partition] builds. *)
Definition query_adding_partition_to_athena (self : AthenaClient)
    (partition : Partition) (directory : string) : string :=
  format ("alter table {} add partition ({}) location " ++ dquote ++ "{}/{}"
            ++ dquote ++ ";")
    [TABLE_NAME;
     implode partition ("{}=" ++ dquote ++ "{}" ++ dquote) ", ";
     s3_bucket self;
     directory].

Definition add_partition (self : AthenaClient) (partition : Partition)
    (directory : string) : CM QueryExecution :=
  execute self (query_adding_partition_to_athena self partition directory).

Definition execute_sync (self : AthenaClient) (query : string) (timeout : Z)
  : CM unit :=
  query_execution <- execute self query ;;
  on_handle query_execution (wait timeout).

(** [[column_value['VarCharValue'] for column_value in row['Data']]] *)
Fixpoint cells_of (data : list Datum) : PyExc + list string :=
  match data with
  | [] => inr []
  | column_value :: data' =>
      match VarCharValue column_value with
      | None => inl (KeyError "VarCharValue")
      | Some v =>
          match cells_of data' with
          | inl e => inl e
          | inr vs => inr (v :: vs)
          end
      end
  end.

(** The outer comprehension, over the rows. *)
Fixpoint table_of (rows : list Row) : PyExc + list (list string) :=
  match rows with
  | [] => inr []
  | row :: rows' =>
      match cells_of (Data row) with
      | inl e => inl e
      | inr r =>
          match table_of rows' with
          | inl e => inl e
          | inr rs => inr (r :: rs)
          end
      end
  end.

(** [xs[0]] *)
Definition index0 {A} (xs : list A) : PyExc + A :=
  match xs with
  | [] => inl (IndexError "list index out of range")
  | x :: _ => inr x
  end.

(** A pure result, possibly an exception, as a computation. *)
Definition lift {S A} (r : PyExc + A) : M S A := fun s => (r, s).

Definition _execute_select (self : AthenaClient) (query : string)
  : CM (list string * list (list string)) :=
  query_execution <- execute self query ;;
  response <- on_handle query_execution (get_result 20) ;;
  let rows := Rows response in
  result <- lift (table_of rows) ;;
  first <- lift (index0 result) ;;
  ret (first, tl result).

(** [int(s)] on ASCII text: blanks around, a sign, decimal digits that single
    underscores may separate.  A [ValueError] carries the rejected text. *)
Definition is_space (c : ascii) : bool :=
  let n := nat_of_ascii c in
  ((9 <=? n) && (n <=? 13) || (28 <=? n) && (n <=? 32))%nat.

Definition is_digit (c : ascii) : bool :=
  let n := nat_of_ascii c in ((48 <=? n) && (n <=? 57))%nat.

Fixpoint lstrip (s : list ascii) : list ascii :=
  match s with
  | c :: s' => if is_space c then lstrip s' else s
  | [] => []
  end.

Definition strip (s : list ascii) : list ascii :=
  rev (lstrip (rev (lstrip s))).

Fixpoint digits_value (s : list ascii) (acc : Z) (after_digit : bool)
  : option Z :=
  match s with
  | [] => if after_digit then Some acc else None
  | c :: s' =>
      if is_digit c then
        digits_value s' (10 * acc + Z.of_nat (nat_of_ascii c - 48)) true
      else if Ascii.eqb c "_" then
        if after_digit then digits_value s' acc false else None
      else None
  end.

Definition int (s : string) : PyExc + Z :=
  let body := strip (list_ascii_of_string s) in
  let parsed :=
    match body with
    | "-"%char :: ds => option_map Z.opp (digits_value ds 0 false)
    | "+"%char :: ds => digits_value ds 0 false
    | ds => digits_value ds 0 false
    end in
  match parsed with
  | Some n => inr n
  | None => inl (ValueError s)
  end.

(** The statement of [get_count], an f-string over [TABLE_NAME]: it counts
    the rows of the table. *)
Definition star : string := String (ascii_of_nat 42) EmptyString.
Definition count_query : string :=
  "select count(" ++ star ++ ") from " ++ TABLE_NAME.

Definition get_count (self : AthenaClient) : CM Z :=
  let query := count_query in
  select <- _execute_select self query ;;
  let '(column_names, rows) := select in
  row <- lift (index0 rows) ;;
  cell <- lift (index0 row) ;;
  lift (int cell).

(** A [dict] from strings to strings, in insertion order: setting a key that
    is present replaces its value where it stands, setting a new key adds it
    at the end. *)
Definition PyDict : Type := list (string * string).

Fixpoint dict_set (k v : string) (d : PyDict) : PyDict :=
  match d with
  | [] => [(k, v)]
  | (k', v') :: d' =>
      if (k' =? k)%string then (k', v) :: d' else (k', v') :: dict_set k v d'
  end.

(** [d[k]], when [k] is a key of [d]. *)
Fixpoint dict_get (k : string) (d : PyDict) : option string :=
  match d with
  | [] => None
  | (k', v') :: d' => if (k' =? k)%string then Some v' else dict_get k d'
  end.

(** [dict(pairs)]: the pairs are set one after the other. *)
Definition dict (pairs : list (string * string)) : PyDict :=
  fold_left (fun d kv => dict_set (fst kv) (snd kv) d) pairs [].

(** [zip(xs, ys)], which stops with the shorter of the two. *)
Definition zip {A B} (xs : list A) (ys : list B) : list (A * B) :=
  combine xs ys.

(** The statement of [get_some], an f-string over [TABLE_NAME]. *)
Definition some_query : string :=
  "select " ++ star ++ " from " ++ TABLE_NAME ++ " limit 10".

Definition get_some (self : AthenaClient) : CM (list PyDict) :=
  let query := some_query in
  select <- _execute_select self query ;;
  let '(column_names, rows) := select in
  ret (map (fun row => dict (zip column_names row)) rows).

(** ** Vocabulary of the statements *)

(** A state that ends no wait: any state other than the three terminal ones. *)
Definition in_progress (status : Status) : bool :=
  negb (State status =? "FAILED")%string && negb (State status =? "CANCELLED")%string
  && negb (State status =? "SUCCEEDED")%string.

(** What the service answers to the status call number [j] (from 0) that the
    handle [h] makes from the world [w] on. *)
Definition poll (h : QueryExecution) (w : World) (j : nat) : Status :=
  get_query_execution (client h) (status_calls w + j) (query_execution_id h).

(** [j] polls, each followed by a sleep of one second. *)
Fixpoint sleepy_polls (id : string) (j : nat) : list Event :=
  match j with
  | O => []
  | S j' => EvStatus id :: EvSleep 1 :: sleepy_polls id j'
  end.

(** [k] polls with a sleep of one second between two of them and none after
    the last. *)
Definition polls (id : string) (k : nat) : list Event :=
  match k with
  | O => []
  | S j => (sleepy_polls id j ++ [EvStatus id])%list
  end.

(** The handle [h] once confirmed. *)
Definition confirmed (h : QueryExecution) : QueryExecution :=
  {| client := client h;
     query_execution_id := query_execution_id h;
     waited := true |}.

(** The operations of a handle, and a caller that runs some of them one
    after the other on the same handle, going on after an exception. *)
Inductive HandleOp : Type :=
| OpWait (timeout : Z)
| OpGetResult (timeout : Z).

Definition run_op (op : HandleOp) (s : QueryExecution * World)
  : QueryExecution * World :=
  match op with
  | OpWait timeout => snd (wait timeout s)
  | OpGetResult timeout => snd (get_result timeout s)
  end.

Fixpoint run_ops (ops : list HandleOp) (s : QueryExecution * World)
  : QueryExecution * World :=
  match ops with
  | [] => s
  | op :: ops' => run_ops ops' (run_op op s)
  end.

(** A result row whose cells hold the given strings. *)
Definition row_of (cells : list string) : Row :=
  {| Data := map (fun v => {| VarCharValue := Some v |}) cells |}.

(** [needle in hay], for strings. *)
Fixpoint contains (needle hay : string) : bool :=
  prefix needle hay
  || match hay with
     | EmptyString => false
     | String _ hay' => contains needle hay'
     end.

(** A service for examples: status calls answer the entries of [script] in
    turn and [RUNNING] after them, every execution has the results
    [results]. *)
Definition scripted (script : list Status) (results : QueryResults)
  : BaseClient :=
  {| start_query_execution := fun n _ _ _ => "execution-" ++ str_int (Z.of_nat n);
     get_query_execution := fun n _ => nth n script (mkStatus "RUNNING" None);
     get_query_results := fun _ _ => results |}.

Definition no_results : QueryResults := {| Rows := [] |}.

(** Following the spec's words for [add_partition]: the location
    [<bucket>/<directory>] between single quotes. *)
Definition single_quoted_location (bucket directory : string) : string :=
  "'" ++ bucket ++ "/" ++ directory ++ "'".

(** What the source writes: the same location between double quotes. *)
Definition double_quoted_location (bucket directory : string) : string :=
  dquote ++ bucket ++ "/" ++ directory ++ dquote.

(** A [key="value"] pair as [add_partition] renders it. *)
Definition render_pair (kv : string * PyVal) : string :=
  fst kv ++ "=" ++ dquote ++ str_val (snd kv) ++ dquote.

(** Examples: a query that is running at the first poll and has succeeded
    at the second, with a header row and one data row; the same with a header
    row only; and a client of each. *)
Definition example_script : list Status :=
  [mkStatus "RUNNING" None; mkStatus "SUCCEEDED" None].

Definition example_results : QueryResults :=
  {| Rows := [row_of ["a"; "b"]; row_of ["1"; "x"]] |}.

Definition header_only_results : QueryResults :=
  {| Rows := [row_of ["_col0"]] |}.

Definition example_athena (results : QueryResults) : AthenaClient :=
  AthenaClient_init (fun _ => scripted example_script results)
    "db" "s3://bkt" "s3://out".

Definition example_handle (script : list Status) : QueryExecution :=
  QueryExecution_init (scripted script no_results) "abc".

(** The ways a wait on an unconfirmed handle can end. *)
Inductive wait_end (t : Z) (h : QueryExecution) (w : World)
  : (PyExc + unit) * (QueryExecution * World) -> Prop :=
| end_failed (k : nat) :
    (1 <= k <= Z.to_nat t)%nat ->
    (forall j, (j < k - 1)%nat -> in_progress (poll h w j) = true) ->
    State (poll h w (k - 1)) = "FAILED" ->
    wait_end t h w
      (inl (Exception (failed_message (query_execution_id h)
                         (reason_of (poll h w (k - 1))))),
       (h, (w ++ polls (query_execution_id h) k)%list))
| end_cancelled (k : nat) :
    (1 <= k <= Z.to_nat t)%nat ->
    (forall j, (j < k - 1)%nat -> in_progress (poll h w j) = true) ->
    State (poll h w (k - 1)) = "CANCELLED" ->
    wait_end t h w
      (inl (Exception (canceled_message (query_execution_id h)
                         (reason_of (poll h w (k - 1))))),
       (h, (w ++ polls (query_execution_id h) k)%list))
| end_succeeded (k : nat) :
    (1 <= k <= Z.to_nat t)%nat ->
    (forall j, (j < k - 1)%nat -> in_progress (poll h w j) = true) ->
    State (poll h w (k - 1)) = "SUCCEEDED" ->
    wait_end t h w
      (inr tt, (confirmed h, (w ++ polls (query_execution_id h) k)%list))
| end_timeout :
    (forall j, (j < Z.to_nat t)%nat -> in_progress (poll h w j) = true) ->
    wait_end t h w
      (inl (Exception (timeout_message (query_execution_id h) t)),
       (h, (w ++ polls (query_execution_id h) (Z.to_nat t))%list)).

(** From the world [w], a method of the client [self] has submitted the
    statement [query] and nothing else: the world [w'] after it is [w], the
    submission, with the database and the output location of the client,
    and then events that are no submissions. *)
Definition submits_once (self : AthenaClient) (query : string) (w w' : World)
  : Prop :=
  exists rest,
    w' = (w ++ EvStart query (db_name self) (output_location self) :: rest)%list
    /\ start_calls rest = 0%nat.

(** More examples: a client over any script and results, and result sets
    with a null cell, with a count, with a cell that is no number, with an
    empty data row and with a column name that occurs twice. *)
Definition scripted_athena (script : list Status) (results : QueryResults)
  : AthenaClient :=
  AthenaClient_init (fun _ => scripted script results)
    "db" "s3://bkt" "s3://out".

Definition null_cell_results : QueryResults :=
  {| Rows := [row_of ["a"; "b"];
              {| Data := [{| VarCharValue := Some "1" |};
                          {| VarCharValue := None |}] |}] |}.

Definition count_results : QueryResults :=
  {| Rows := [row_of ["_col0"]; row_of ["42"]] |}.


Definition empty_row_results : QueryResults :=
  {| Rows := [row_of ["_col0"]; row_of []] |}.

Definition twice_a_results : QueryResults :=
  {| Rows := [row_of ["a"; "b"; "a"]; row_of ["1"; "2"; "3"]] |}.

(** ** Strings *)

Lemma append_empty_r (s : string) : s ++ EmptyString = s.
Proof. induction s as [|c s IH]; simpl; [reflexivity | now rewrite IH]. Qed.

Lemma append_assoc (a b c : string) : (a ++ b) ++ c = a ++ (b ++ c).
Proof. induction a as [|x a IH]; simpl; [reflexivity | now rewrite IH]. Qed.

Lemma append_inj_l (a b c : string) : a ++ b = a ++ c -> b = c.
Proof.
  induction a as [|x a IH]; simpl; intros H; [exact H|].
  injection H as H. auto.
Qed.

Lemma failed_message_eq (id reason : string) :
  failed_message id reason
  = "Athena execution " ++ id ++ " is failed. " ++ reason.
Proof.
  unfold failed_message. cbn [format append].
  now rewrite append_empty_r.
Qed.

Lemma canceled_message_eq (id reason : string) :
  canceled_message id reason
  = "Athena execution " ++ id ++ " is canceled. " ++ reason.
Proof.
  unfold canceled_message. cbn [format append].
  now rewrite append_empty_r.
Qed.

Lemma timeout_message_eq (id : string) (timeout : Z) :
  timeout_message id timeout
  = "Athena execution " ++ id ++ " is not processed in "
      ++ str_int timeout ++ " seconds.".
Proof. unfold timeout_message. cbn [format append]. reflexivity. Qed.

(** ** Counting in traces *)

Lemma status_calls_app (w1 w2 : World) :
  status_calls (w1 ++ w2)%list = (status_calls w1 + status_calls w2)%nat.
Proof. unfold status_calls. now rewrite filter_app, length_app. Qed.

Lemma sleeps_app (w1 w2 : World) :
  sleeps (w1 ++ w2)%list = (sleeps w1 + sleeps w2)%nat.
Proof. unfold sleeps. now rewrite filter_app, length_app. Qed.

Lemma slept_seconds_app (w1 w2 : World) :
  slept_seconds (w1 ++ w2)%list = slept_seconds w1 + slept_seconds w2.
Proof.
  unfold slept_seconds.
  induction w1 as [|e w1 IH]; simpl; [reflexivity|].
  destruct e; rewrite IH; lia.
Qed.

Lemma status_calls_sleepy (id : string) (j : nat) :
  status_calls (sleepy_polls id j) = j.
Proof.
  induction j as [|j IH]; [reflexivity|].
  change (S (status_calls (sleepy_polls id j)) = S j). now rewrite IH.
Qed.

Lemma sleeps_sleepy (id : string) (j : nat) : sleeps (sleepy_polls id j) = j.
Proof.
  induction j as [|j IH]; [reflexivity|].
  change (S (sleeps (sleepy_polls id j)) = S j). now rewrite IH.
Qed.

Lemma slept_seconds_sleepy (id : string) (j : nat) :
  slept_seconds (sleepy_polls id j) = Z.of_nat j.
Proof.
  induction j as [|j IH]; [reflexivity|].
  change (1 + slept_seconds (sleepy_polls id j) = Z.of_nat (S j)). lia.
Qed.

Lemma status_calls_polls (id : string) (k : nat) :
  status_calls (polls id k) = k.
Proof.
  destruct k as [|j]; [reflexivity|]. unfold polls.
  rewrite status_calls_app, status_calls_sleepy.
  change (status_calls [EvStatus id]) with 1%nat. lia.
Qed.

Lemma sleeps_polls (id : string) (k : nat) :
  sleeps (polls id k) = (k - 1)%nat.
Proof.
  destruct k as [|j]; [reflexivity|]. unfold polls.
  rewrite sleeps_app, sleeps_sleepy.
  change (sleeps [EvStatus id]) with 0%nat. lia.
Qed.

Lemma slept_seconds_polls (id : string) (k : nat) :
  slept_seconds (polls id k) = Z.of_nat (k - 1).
Proof.
  destruct k as [|j]; [reflexivity|]. unfold polls.
  rewrite slept_seconds_app, slept_seconds_sleepy.
  change (slept_seconds [EvStatus id]) with 0. lia.
Qed.

(** ** The polling loop *)

(** One iteration of the loop. *)
Lemma wait_loop_step (timeout : Z) (n : nat) (i : Z)
    (h : QueryExecution) (w : World) :
  wait_loop timeout (S n) i (h, w)
  = let id := query_execution_id h in
    let status := poll h w 0 in
    let w1 := (w ++ [EvStatus id])%list in
    if (State status =? "FAILED")%string then
      (inl (Exception (failed_message id (reason_of status))), (h, w1))
    else if (State status =? "CANCELLED")%string then
      (inl (Exception (canceled_message id (reason_of status))), (h, w1))
    else if (State status =? "SUCCEEDED")%string then
      (inr tt, (confirmed h, w1))
    else
      wait_loop timeout n (i + 1)
        (h, if negb (i =? timeout - 1)%Z then (w1 ++ [EvSleep 1])%list else w1).
Proof.
  unfold poll. rewrite Nat.add_0_r.
  cbn [wait_loop]. unfold bind, self, call_get_query_execution. cbn [fst snd].
  destruct (State _ =? "FAILED")%string%string; [reflexivity|].
  destruct (State _ =? "CANCELLED")%string%string; [reflexivity|].
  destruct (State _ =? "SUCCEEDED")%string%string; [reflexivity|].
  destruct (negb (i =? timeout - 1)%Z); reflexivity.
Qed.

Lemma in_progress_states (status : Status) :
  in_progress status = true ->
  (State status =? "FAILED")%string = false
  /\ (State status =? "CANCELLED")%string = false
  /\ (State status =? "SUCCEEDED")%string = false.
Proof.
  unfold in_progress. intros H.
  apply andb_prop in H as [H H3]. apply andb_prop in H as [H1 H2].
  repeat split; now apply negb_true_iff.
Qed.

Lemma poll_app (h : QueryExecution) (w w2 : World) (j : nat) :
  poll h (w ++ w2)%list j = poll h w (status_calls w2 + j).
Proof.
  unfold poll. rewrite status_calls_app. f_equal. lia.
Qed.

(** [j] iterations in progress, none of them the last of the range: each
    polls and sleeps. *)
Lemma wait_loop_in_progress (timeout : Z) (h : QueryExecution) :
  forall (j n : nat) (i : Z) (w : World),
    i + Z.of_nat j <= timeout - 1 ->
    (forall m, (m < j)%nat -> in_progress (poll h w m) = true) ->
    wait_loop timeout (j + n) i (h, w)
    = wait_loop timeout n (i + Z.of_nat j)
        (h, (w ++ sleepy_polls (query_execution_id h) j)%list).
Proof.
  induction j as [|j IH]; intros n i w Hi Hp.
  - cbn [sleepy_polls Nat.add]. rewrite app_nil_r. f_equal. lia.
  - cbn [Nat.add]. rewrite wait_loop_step. cbv zeta.
    destruct (in_progress_states _ (Hp 0%nat ltac:(lia))) as (-> & -> & ->).
    replace (i =? timeout - 1)%Z with false by (symmetry; apply Z.eqb_neq; lia).
    cbn [negb].
    rewrite IH.
    + rewrite <- !app_assoc. cbn [sleepy_polls app]. f_equal. lia.
    + lia.
    + intros m Hm. rewrite <- app_assoc, poll_app. cbn.
      apply (Hp (S m)). lia.
Qed.

Lemma wait_unconfirmed (timeout : Z) (h : QueryExecution) (w : World) :
  waited h = false ->
  wait timeout (h, w) = wait_loop timeout (Z.to_nat timeout) 0 (h, w).
Proof.
  intros Hw. unfold wait, bind, self. cbn [fst snd]. now rewrite Hw.
Qed.

Lemma wait_confirmed (timeout : Z) (h : QueryExecution) (w : World) :
  waited h = true -> wait timeout (h, w) = (inr tt, (h, w)).
Proof.
  intros Hw. unfold wait, bind, self. cbn [fst snd]. now rewrite Hw.
Qed.

(** A wait whose first [k - 1] polls are in progress reaches iteration
    [k - 1] of its loop, having polled and slept [k - 1] times. *)
Lemma wait_reaches (t : Z) (k : nat) (h : QueryExecution) (w : World) :
  waited h = false ->
  (1 <= k)%nat -> Z.of_nat k <= t ->
  (forall j, (j < k - 1)%nat -> in_progress (poll h w j) = true) ->
  wait t (h, w)
  = wait_loop t (S (Z.to_nat t - k)) (Z.of_nat (k - 1))
      (h, (w ++ sleepy_polls (query_execution_id h) (k - 1))%list).
Proof.
  intros Hw Hk Hkt Hp. rewrite (wait_unconfirmed _ _ _ Hw).
  replace (Z.to_nat t) with ((k - 1) + S (Z.to_nat t - k))%nat at 1 by lia.
  rewrite wait_loop_in_progress; [reflexivity | lia | exact Hp].
Qed.

Lemma poll_after_sleepy (h : QueryExecution) (w : World) (id : string) (j : nat) :
  poll h (w ++ sleepy_polls id j)%list 0 = poll h w j.
Proof. rewrite poll_app, status_calls_sleepy. f_equal. lia. Qed.

Lemma polls_eq (id : string) (k : nat) (w : World) :
  (1 <= k)%nat ->
  ((w ++ sleepy_polls id (k - 1)) ++ [EvStatus id])%list = (w ++ polls id k)%list.
Proof.
  intros Hk. destruct k as [|j]; [lia|].
  replace (S j - 1)%nat with j by lia. unfold polls. now rewrite app_assoc.
Qed.

(** ** The claims about [QueryExecution.wait] *)

(** C1.  For a timeout [t >= 1] and a poll attempt [k] with [1 <= k <= t]:
    when the [k - 1] first status calls of a wait on an unconfirmed handle
    find the execution in progress and the [k]-th one reports SUCCEEDED,
    [wait t] returns normally with the flag set, having made exactly [k]
    status calls and exactly [k - 1] sleeps, each of one second: the trace
    grows by [k] polls with a sleep between two of them and none after the
    last. *)
Theorem wait_succeeds_on_kth_poll
    (h : QueryExecution) (w : World) (t : Z) (k : nat) :
  waited h = false ->
  1 <= t -> (1 <= k)%nat -> Z.of_nat k <= t ->
  (forall j, (j < k - 1)%nat -> in_progress (poll h w j) = true) ->
  State (poll h w (k - 1)) = "SUCCEEDED" ->
  let w' := (w ++ polls (query_execution_id h) k)%list in
  wait t (h, w) = (inr tt, (confirmed h, w'))
  /\ status_calls w' = (status_calls w + k)%nat
  /\ sleeps w' = (sleeps w + (k - 1))%nat
  /\ slept_seconds w' = slept_seconds w + Z.of_nat (k - 1).
Proof.
  intros Hw Ht Hk Hkt Hp Hs w'. subst w'. split.
  - rewrite (wait_reaches t k h w Hw Hk Hkt Hp), wait_loop_step. cbv zeta.
    rewrite poll_after_sleepy, Hs. cbn [String.eqb Ascii.eqb Bool.eqb].
    now rewrite polls_eq.
  - rewrite status_calls_app, sleeps_app, slept_seconds_app.
    now rewrite status_calls_polls, sleeps_polls, slept_seconds_polls.
Qed.

(** C2.  For a timeout [t >= 1]: when none of the [t] first status calls of
    a wait on an unconfirmed handle reports SUCCEEDED, FAILED or CANCELLED,
    [wait t] raises the exception whose message names the execution id and
    [t], after exactly [t] status calls (and [t - 1] sleeps), and leaves the
    handle as it was. *)
Theorem wait_times_out (h : QueryExecution) (w : World) (t : Z) :
  waited h = false ->
  1 <= t ->
  (forall j, (j < Z.to_nat t)%nat -> in_progress (poll h w j) = true) ->
  let id := query_execution_id h in
  let w' := (w ++ polls id (Z.to_nat t))%list in
  wait t (h, w)
  = (inl (Exception ("Athena execution " ++ id ++ " is not processed in "
                       ++ str_int t ++ " seconds.")),
     (h, w'))
  /\ status_calls w' = (status_calls w + Z.to_nat t)%nat
  /\ sleeps w' = (sleeps w + (Z.to_nat t - 1))%nat.
Proof.
  intros Hw Ht Hp id w'. subst id w'. split.
  - rewrite (wait_reaches t (Z.to_nat t) h w Hw); [| lia | lia |].
    2:{ intros j Hj. apply Hp. lia. }
    rewrite wait_loop_step. cbv zeta. rewrite poll_after_sleepy.
    destruct (in_progress_states _ (Hp (Z.to_nat t - 1)%nat ltac:(lia)))
      as (-> & -> & ->).
    replace (Z.of_nat (Z.to_nat t - 1) =? t - 1)%Z with true
      by (symmetry; apply Z.eqb_eq; lia).
    cbn [negb]. rewrite polls_eq by lia.
    replace (Z.to_nat t - Z.to_nat t)%nat with 0%nat by lia.
    cbn [wait_loop]. unfold bind, self, raise. cbn [fst snd].
    now rewrite timeout_message_eq.
  - rewrite status_calls_app, sleeps_app.
    now rewrite status_calls_polls, sleeps_polls.
Qed.

(** C4.  When the status call that ends a wait (the [k]-th, after [k - 1]
    polls in progress, [k <= t]) reports FAILED, [wait t] raises an exception
    whose message carries the execution id and the reason: the
    ['StateChangeReason'] of the response when it has one, and the
    placeholder [No reason is given.] when it has none. *)
Theorem wait_failed (h : QueryExecution) (w : World) (t : Z) (k : nat) :
  waited h = false ->
  (1 <= k)%nat -> Z.of_nat k <= t ->
  (forall j, (j < k - 1)%nat -> in_progress (poll h w j) = true) ->
  State (poll h w (k - 1)) = "FAILED" ->
  let id := query_execution_id h in
  let w' := (w ++ polls id k)%list in
  (forall reason, StateChangeReason (poll h w (k - 1)) = Some reason ->
     wait t (h, w)
     = (inl (Exception ("Athena execution " ++ id ++ " is failed. " ++ reason)),
        (h, w')))
  /\ (StateChangeReason (poll h w (k - 1)) = None ->
     wait t (h, w)
     = (inl (Exception ("Athena execution " ++ id
                          ++ " is failed. No reason is given.")),
        (h, w'))).
Proof.
  intros Hw Hk Hkt Hp Hs id w'. subst id w'.
  assert (E : wait t (h, w)
              = (inl (Exception (failed_message (query_execution_id h)
                                   (reason_of (poll h w (k - 1))))),
                 (h, (w ++ polls (query_execution_id h) k)%list))).
  { rewrite (wait_reaches t k h w Hw Hk Hkt Hp), wait_loop_step. cbv zeta.
    rewrite poll_after_sleepy, Hs. cbn [String.eqb Ascii.eqb Bool.eqb].
    now rewrite polls_eq. }
  rewrite failed_message_eq in E. unfold reason_of in E.
  split; [intros reason Hr | intros Hr]; rewrite Hr in E; exact E.
Qed.

(** C5.  When the status call that ends a wait reports CANCELLED, [wait t]
    raises an exception of the same shape as in the FAILED case, carrying
    the execution id and the reason (or the placeholder), and its message
    differs from the one of every FAILED error of the same execution. *)
Theorem wait_cancelled (h : QueryExecution) (w : World) (t : Z) (k : nat) :
  waited h = false ->
  (1 <= k)%nat -> Z.of_nat k <= t ->
  (forall j, (j < k - 1)%nat -> in_progress (poll h w j) = true) ->
  State (poll h w (k - 1)) = "CANCELLED" ->
  let id := query_execution_id h in
  let reason := reason_of (poll h w (k - 1)) in
  let canceled :=
    Exception ("Athena execution " ++ id ++ " is canceled. " ++ reason) in
  wait t (h, w) = (inl canceled, (h, (w ++ polls id k)%list))
  /\ forall reason',
       canceled
       <> Exception ("Athena execution " ++ id ++ " is failed. " ++ reason').
Proof.
  intros Hw Hk Hkt Hp Hs id reason canceled. subst id reason canceled. split.
  - rewrite (wait_reaches t k h w Hw Hk Hkt Hp), wait_loop_step. cbv zeta.
    rewrite poll_after_sleepy, Hs. cbn [String.eqb Ascii.eqb Bool.eqb].
    now rewrite polls_eq, canceled_message_eq.
  - intros reason' E. injection E as E.
    apply append_inj_l in E. discriminate E.
Qed.

(** C10.  On an unconfirmed handle, [wait t] with [t <= 0] makes no status
    call and no sleep (the world is left as it was) and raises at once the
    exception whose message names the execution id and [t]. *)
Theorem wait_nonpositive_timeout (h : QueryExecution) (w : World) (t : Z) :
  waited h = false ->
  t <= 0 ->
  wait t (h, w)
  = (inl (Exception ("Athena execution " ++ query_execution_id h
                       ++ " is not processed in " ++ str_int t ++ " seconds.")),
     (h, w)).
Proof.
  intros Hw Ht. rewrite (wait_unconfirmed _ _ _ Hw).
  replace (Z.to_nat t) with 0%nat by lia.
  cbn [wait_loop]. unfold bind, self, raise. cbn [fst snd].
  now rewrite timeout_message_eq.
Qed.

(** ** What the loop does to the handle *)

Lemma wait_loop_raise_keeps_handle (t : Z) :
  forall (n : nat) (i : Z) (h : QueryExecution) (w : World) e s',
    wait_loop t n i (h, w) = (inl e, s') -> fst s' = h.
Proof.
  induction n as [|n IH]; intros i h w e s' E.
  - cbn [wait_loop] in E. unfold bind, self, raise in E. cbn [fst snd] in E.
    now inversion E.
  - rewrite wait_loop_step in E. cbv zeta in E.
    destruct (State _ =? "FAILED")%string; [now inversion E|].
    destruct (State _ =? "CANCELLED")%string; [now inversion E|].
    destruct (State _ =? "SUCCEEDED")%string; [discriminate E|].
    exact (IH _ _ _ _ _ E).
Qed.

Lemma wait_loop_return_confirms (t : Z) :
  forall (n : nat) (i : Z) (h : QueryExecution) (w : World) s',
    wait_loop t n i (h, w) = (inr tt, s') -> waited (fst s') = true.
Proof.
  induction n as [|n IH]; intros i h w s' E.
  - cbn [wait_loop] in E. unfold bind, self, raise in E. discriminate E.
  - rewrite wait_loop_step in E. cbv zeta in E.
    destruct (State _ =? "FAILED")%string; [discriminate E|].
    destruct (State _ =? "CANCELLED")%string; [discriminate E|].
    destruct (State _ =? "SUCCEEDED")%string; [now inversion E|].
    exact (IH _ _ _ _ E).
Qed.

Lemma wait_loop_status_calls_mono (t : Z) :
  forall (n : nat) (i : Z) (h : QueryExecution) (w : World),
    (status_calls w <= status_calls (snd (snd (wait_loop t n i (h, w)))))%nat.
Proof.
  induction n as [|n IH]; intros i h w.
  - cbn [wait_loop]. unfold bind, self, raise. cbn [fst snd]. lia.
  - rewrite wait_loop_step. cbv zeta.
    assert (H1 : status_calls (w ++ [EvStatus (query_execution_id h)])%list
                 = S (status_calls w)).
    { rewrite status_calls_app.
      change (status_calls [EvStatus (query_execution_id h)]) with 1%nat. lia. }
    destruct (State _ =? "FAILED")%string; [cbn [snd]; lia|].
    destruct (State _ =? "CANCELLED")%string; [cbn [snd]; lia|].
    destruct (State _ =? "SUCCEEDED")%string; [cbn [snd]; lia|].
    etransitivity; [| apply IH].
    destruct (negb _); [rewrite status_calls_app|]; lia.
Qed.

Lemma wait_loop_polls_at_least_once (t : Z) (n : nat) (i : Z)
    (h : QueryExecution) (w : World) :
  (status_calls w + 1
   <= status_calls (snd (snd (wait_loop t (S n) i (h, w)))))%nat.
Proof.
  rewrite wait_loop_step. cbv zeta.
  assert (H1 : status_calls (w ++ [EvStatus (query_execution_id h)])%list
               = S (status_calls w)).
  { rewrite status_calls_app.
    change (status_calls [EvStatus (query_execution_id h)]) with 1%nat. lia. }
  destruct (State _ =? "FAILED")%string; [cbn [snd]; lia|].
  destruct (State _ =? "CANCELLED")%string; [cbn [snd]; lia|].
  destruct (State _ =? "SUCCEEDED")%string; [cbn [snd]; lia|].
  etransitivity; [| apply wait_loop_status_calls_mono].
  destruct (negb _); [rewrite status_calls_app|]; lia.
Qed.

Lemma wait_return_confirms (t : Z) (h : QueryExecution) (w : World) s' :
  wait t (h, w) = (inr tt, s') -> waited (fst s') = true.
Proof.
  destruct (waited h) eqn:Hw.
  - rewrite (wait_confirmed _ _ _ Hw). intros E. now inversion E.
  - rewrite (wait_unconfirmed _ _ _ Hw). apply wait_loop_return_confirms.
Qed.

Lemma run_op_confirmed (op : HandleOp) (h : QueryExecution) (w : World) :
  waited h = true ->
  fst (run_op op (h, w)) = h
  /\ status_calls (snd (run_op op (h, w))) = status_calls w
  /\ sleeps (snd (run_op op (h, w))) = sleeps w.
Proof.
  intros Hw. destruct op as [t|t]; cbn [run_op].
  - rewrite (wait_confirmed _ _ _ Hw). cbn [fst snd]. auto.
  - unfold get_result, bind. rewrite (wait_confirmed _ _ _ Hw).
    unfold call_get_query_results. cbn [fst snd].
    rewrite status_calls_app, sleeps_app. cbn. split; [reflexivity | lia].
Qed.

Lemma run_ops_confirmed (ops : list HandleOp) :
  forall (h : QueryExecution) (w : World),
    waited h = true ->
    fst (run_ops ops (h, w)) = h
    /\ status_calls (snd (run_ops ops (h, w))) = status_calls w
    /\ sleeps (snd (run_ops ops (h, w))) = sleeps w.
Proof.
  induction ops as [|op ops IH]; intros h w Hw; [cbn; auto|].
  cbn [run_ops].
  destruct (run_op_confirmed op h w Hw) as (E1 & E2 & E3).
  destruct (run_op op (h, w)) as [h1 w1]. cbn [fst snd] in *. subst h1.
  destruct (IH h w1 Hw) as (F1 & F2 & F3).
  rewrite F1, F2, F3, E2, E3. auto.
Qed.

(** C3.  A [wait] that returns normally leaves the flag set, and no later
    operation of the handle ([wait] or [get_result], with any timeouts, in
    any number and order) unsets it: after them the handle is the same, no
    status call and no sleep has been added, and every further [wait]
    returns normally at once, leaving the handle and the world as they
    are. *)
Theorem confirmed_flag_is_stable
    (t : Z) (h h1 : QueryExecution) (w w1 : World) :
  wait t (h, w) = (inr tt, (h1, w1)) ->
  waited h1 = true
  /\ forall ops : list HandleOp,
       let s2 := run_ops ops (h1, w1) in
       waited (fst s2) = true
       /\ status_calls (snd s2) = status_calls w1
       /\ sleeps (snd s2) = sleeps w1
       /\ forall t', wait t' s2 = (inr tt, s2).
Proof.
  intros E. apply wait_return_confirms in E. cbn [fst] in E.
  split; [exact E|]. intros ops s2. subst s2.
  destruct (run_ops_confirmed ops h1 w1 E) as (F1 & F2 & F3).
  destruct (run_ops ops (h1, w1)) as [h2 w2]. cbn [fst snd] in *. subst h2.
  repeat split; auto.
  intros t'. now apply wait_confirmed.
Qed.

(** C6.  A [wait] that raises (on FAILED, on CANCELLED or on timeout)
    leaves the handle as it was, with the flag unset: the failure is not
    remembered, and a later [wait] with a timeout of at least 1 polls the
    service again. *)
Theorem wait_failure_not_memoized
    (t : Z) (h h' : QueryExecution) (w w' : World) (e : PyExc) :
  wait t (h, w) = (inl e, (h', w')) ->
  h' = h
  /\ waited h' = false
  /\ forall t', 1 <= t' ->
       (status_calls w' + 1
        <= status_calls (snd (snd (wait t' (h', w')))))%nat.
Proof.
  intros E.
  destruct (waited h) eqn:Hw.
  { rewrite (wait_confirmed _ _ _ Hw) in E. discriminate E. }
  rewrite (wait_unconfirmed _ _ _ Hw) in E.
  apply wait_loop_raise_keeps_handle in E. cbn [fst] in E. subst h'.
  repeat split; [exact Hw|].
  intros t' Ht'. rewrite (wait_unconfirmed _ _ _ Hw).
  destruct (Z.to_nat t') as [|n] eqn:En; [lia|].
  apply wait_loop_polls_at_least_once.
Qed.

(** ** The claims about [AthenaClient] *)
Lemma format_pair (k v : string) :
  format ("{}=" ++ dquote ++ "{}" ++ dquote) [k; v]
  = k ++ "=" ++ dquote ++ v ++ dquote.
Proof. reflexivity. Qed.

Lemma implode_pairs (partition : Partition) :
  implode partition ("{}=" ++ dquote ++ "{}" ++ dquote) ", "
  = join ", " (map render_pair (partitions partition)).
Proof.
  unfold implode. f_equal.
Qed.

Lemma query_adding_partition_eq (self : AthenaClient) (partition : Partition)
    (directory : string) :
  query_adding_partition_to_athena self partition directory
  = "alter table athena_table_name add partition ("
      ++ join ", " (map render_pair (partitions partition))
      ++ ") location " ++ double_quoted_location (s3_bucket self) directory
      ++ ";".
Proof.
  unfold query_adding_partition_to_athena, double_quoted_location.
  rewrite implode_pairs.
  generalize (join ", " (map render_pair (partitions partition))) as r.
  intros r. rewrite !append_assoc. reflexivity.
Qed.

(** C7, as amended.  For every client, partition descriptor and directory,
    [add_partition] builds the statement
    [alter table athena_table_name add partition (...) location ...;] in
    which the pairs of the descriptor are rendered as [key="value"], joined
    by a comma and a blank in the order of the mapping, and the location is
    [<bucket>/<directory>] between double quotes.  It submits the statement
    and returns the fresh handle without waiting: one submission, no status
    call, no sleep, flag unset. *)
Theorem add_partition_statement (self : AthenaClient) (partition : Partition)
    (directory : string) (w : World) :
  let query :=
    "alter table athena_table_name add partition ("
      ++ join ", " (map render_pair (partitions partition))
      ++ ") location " ++ double_quoted_location (s3_bucket self) directory
      ++ ";" in
  let id :=
    start_query_execution (athena_client self) (start_calls w)
      query (db_name self) (output_location self) in
  let w' := (w ++ [EvStart query (db_name self) (output_location self)])%list in
  add_partition self partition directory w
  = (inr {| client := athena_client self;
            query_execution_id := id;
            waited := false |}, w')
  /\ status_calls w' = status_calls w
  /\ sleeps w' = sleeps w.
Proof.
  intros query id w'. subst query id w'. split.
  - unfold add_partition, execute, QueryExecution_init.
    now rewrite query_adding_partition_eq.
  - rewrite status_calls_app, sleeps_app. cbn. lia.
Qed.

(** C7 as stated fails: for the descriptor [{created_at: 2024-01-01, type:
    daily}], the bucket [s3://bkt] and the directory [2024/01/01], the
    statement submitted holds the pairs in the order of the mapping, but its
    location is between double quotes, and the single-quoted location
    occurs nowhere in it. *)
Lemma add_partition_location_is_not_single_quoted :
  let self := example_athena no_results in
  let partition := Partition_init (mkDate 2024 1 1) "daily" in
  let query := query_adding_partition_to_athena self partition "2024/01/01" in
  snd (add_partition self partition "2024/01/01" [])
  = [EvStart query "db" "s3://out"]
  /\ contains ("created_at=" ++ dquote ++ "2024-01-01" ++ dquote ++ ", type="
                 ++ dquote ++ "daily" ++ dquote) query = true
  /\ contains (double_quoted_location "s3://bkt" "2024/01/01") query = true
  /\ contains (single_quoted_location "s3://bkt" "2024/01/01") query = false.
Proof. vm_compute. repeat split. Qed.

Lemma cells_of_row_of (cells : list string) :
  cells_of (Data (row_of cells)) = inr cells.
Proof.
  unfold row_of. cbn [Data].
  induction cells as [|c cells IH]; [reflexivity|].
  cbn [map cells_of VarCharValue]. now rewrite IH.
Qed.

Lemma table_of_row_of (table : list (list string)) :
  table_of (map row_of table) = inr table.
Proof.
  induction table as [|r table IH]; [reflexivity|].
  cbn [map table_of]. now rewrite cells_of_row_of, IH.
Qed.

(** The select helper on a fetched result set of string cells. *)
Lemma execute_select_table (self : AthenaClient) (query : string) (w w0 : World)
    (h0 : QueryExecution) (response : QueryResults)
    (s1 : QueryExecution * World)
    (header : list string) (data : list (list string)) :
  execute self query w = (inr h0, w0) ->
  get_result 20 (h0, w0) = (inr response, s1) ->
  Rows response = map row_of (header :: data) ->
  _execute_select self query w = (inr (header, data), snd s1).
Proof.
  intros He Hg Hr. unfold _execute_select, bind at 1. rewrite He.
  unfold bind at 1, on_handle. rewrite Hg. destruct s1 as [h1 w1].
  unfold bind, lift, ret. rewrite Hr, table_of_row_of. reflexivity.
Qed.

(** A result set without rows, or with a cell that has no ['VarCharValue'],
    makes the helper raise. *)
Lemma execute_select_no_rows (self : AthenaClient) (query : string) (w w0 : World)
    (h0 : QueryExecution) (response : QueryResults)
    (s1 : QueryExecution * World) :
  execute self query w = (inr h0, w0) ->
  get_result 20 (h0, w0) = (inr response, s1) ->
  Rows response = [] ->
  _execute_select self query w
  = (inl (IndexError "list index out of range"), snd s1).
Proof.
  intros He Hg Hr. unfold _execute_select, bind at 1. rewrite He.
  unfold bind at 1, on_handle. rewrite Hg. destruct s1 as [h1 w1].
  unfold bind, lift, ret. rewrite Hr. reflexivity.
Qed.


(** C9.  When the result set fetched for [get_count] has a header row and
    no data row, [get_count] raises the [IndexError] of indexing the empty
    list of data rows, which is neither the [ValueError] of [int] nor the
    [Exception] of a failed wait. *)
Theorem get_count_header_only
    (self : AthenaClient) (w w0 : World)
    (h0 : QueryExecution) (response : QueryResults)
    (s1 : QueryExecution * World) (header : list string) :
  execute self count_query w = (inr h0, w0) ->
  get_result 20 (h0, w0) = (inr response, s1) ->
  Rows response = [row_of header] ->
  get_count self w = (inl (IndexError "list index out of range"), snd s1)
  /\ (forall text, IndexError "list index out of range" <> ValueError text)
  /\ (forall msg, IndexError "list index out of range" <> Exception msg).
Proof.
  intros He Hg Hr. split; [| split; intros ?; discriminate].
  unfold get_count, bind at 1.
  rewrite (execute_select_table self count_query w w0 h0 response s1 header []
             He Hg Hr).
  reflexivity.
Qed.

(** ** The theorems at work on the examples *)

(** A query running at the first poll and succeeded at the second, waited
    for with a timeout of 3: two polls, one sleep. *)
Lemma wait_succeeds_on_kth_poll_witness :
  wait 3 (example_handle example_script, [])
  = (inr tt, (confirmed (example_handle example_script),
              [EvStatus "abc"; EvSleep 1; EvStatus "abc"])).
Proof.
  apply (proj1 (wait_succeeds_on_kth_poll
                  (example_handle example_script) [] 3 2
                  eq_refl ltac:(lia) ltac:(lia) ltac:(lia)
                  ltac:(intros [|j] Hj; [reflexivity | lia])
                  eq_refl)).
Defined.

(** A query that keeps running, waited for with a timeout of 2. *)
Lemma wait_times_out_witness :
  wait 2 (example_handle [], [])
  = (inl (Exception "Athena execution abc is not processed in 2 seconds."),
     (example_handle [], [EvStatus "abc"; EvSleep 1; EvStatus "abc"])).
Proof.
  apply (proj1 (wait_times_out (example_handle []) [] 2
                  eq_refl ltac:(lia)
                  ltac:(intros [|[|j]] Hj; [reflexivity | reflexivity | lia]))).
Defined.

(** After the wait of the first example, a [get_result], a [wait] with a
    timeout of 0 and a [wait] with the default timeout. *)
Lemma confirmed_flag_is_stable_witness :
  let h1 := confirmed (example_handle example_script) in
  let w1 := [EvStatus "abc"; EvSleep 1; EvStatus "abc"] in
  let s2 := run_ops [OpGetResult 20; OpWait 0; OpWait 20] (h1, w1) in
  waited h1 = true
  /\ waited (fst s2) = true
  /\ status_calls (snd s2) = 2%nat
  /\ sleeps (snd s2) = 1%nat
  /\ wait 20 s2 = (inr tt, s2).
Proof.
  intros h1 w1 s2.
  destruct (confirmed_flag_is_stable 3 (example_handle example_script) h1
              [] w1 eq_refl) as [H1 H2].
  destruct (H2 [OpGetResult 20; OpWait 0; OpWait 20]) as (F1 & F2 & F3 & F4).
  exact (conj H1 (conj F1 (conj F2 (conj F3 (F4 20))))).
Defined.

(** A query found failed at the second poll, with and without a reason. *)
Lemma wait_failed_witness :
  wait 3 (example_handle [mkStatus "RUNNING" None;
                          mkStatus "FAILED" (Some "SYNTAX_ERROR: line 1")], [])
  = (inl (Exception "Athena execution abc is failed. SYNTAX_ERROR: line 1"),
     (example_handle [mkStatus "RUNNING" None;
                      mkStatus "FAILED" (Some "SYNTAX_ERROR: line 1")],
      [EvStatus "abc"; EvSleep 1; EvStatus "abc"]))
  /\ wait 3 (example_handle [mkStatus "FAILED" None], [])
     = (inl (Exception "Athena execution abc is failed. No reason is given."),
        (example_handle [mkStatus "FAILED" None], [EvStatus "abc"])).
Proof.
  split.
  - apply (proj1 (wait_failed
                    (example_handle
                       [mkStatus "RUNNING" None;
                        mkStatus "FAILED" (Some "SYNTAX_ERROR: line 1")])
                    [] 3 2
                    eq_refl ltac:(lia) ltac:(lia)
                    ltac:(intros [|j] Hj; [reflexivity | lia])
                    eq_refl)).
    reflexivity.
  - apply (proj2 (wait_failed (example_handle [mkStatus "FAILED" None])
                    [] 3 1
                    eq_refl ltac:(lia) ltac:(lia)
                    ltac:(intros j Hj; lia)
                    eq_refl)).
    reflexivity.
Defined.

(** A query found cancelled at the first poll. *)
Lemma wait_cancelled_witness :
  wait 1 (example_handle [mkStatus "CANCELLED" (Some "by the user")], [])
  = (inl (Exception "Athena execution abc is canceled. by the user"),
     (example_handle [mkStatus "CANCELLED" (Some "by the user")],
      [EvStatus "abc"])).
Proof.
  apply (proj1 (wait_cancelled
                  (example_handle [mkStatus "CANCELLED" (Some "by the user")])
                  [] 1 1
                  eq_refl ltac:(lia) ltac:(lia)
                  ltac:(intros j Hj; lia)
                  eq_refl)).
Defined.

(** After a timeout, the next wait polls again. *)
Lemma wait_failure_not_memoized_witness :
  waited (example_handle []) = false
  /\ (2 <= status_calls
             (snd (snd (wait 20 (example_handle [], [EvStatus "abc"])))))%nat.
Proof.
  destruct (wait_failure_not_memoized 1
              (example_handle []) (example_handle []) [] [EvStatus "abc"]
              (Exception "Athena execution abc is not processed in 1 seconds.")
              eq_refl) as (_ & H2 & H3).
  split; [exact H2 | exact (H3 20 ltac:(lia))].
Defined.


(** [get_count] when the result set has the header row only. *)
Lemma get_count_header_only_witness :
  fst (get_count (example_athena header_only_results) [])
  = inl (IndexError "list index out of range").
Proof.
  pose proof (get_count_header_only
                (example_athena header_only_results) []
                _ _ _ _ ["_col0"]
                eq_refl eq_refl eq_refl) as [E _].
  rewrite E. reflexivity.
Defined.

(** Timeouts of 0 and of -3 on a fresh handle. *)
Lemma wait_nonpositive_timeout_witness :
  wait 0 (example_handle example_script, [])
  = (inl (Exception "Athena execution abc is not processed in 0 seconds."),
     (example_handle example_script, []))
  /\ wait (-3) (example_handle example_script, [])
     = (inl (Exception "Athena execution abc is not processed in -3 seconds."),
        (example_handle example_script, [])).
Proof.
  split.
  - apply (wait_nonpositive_timeout (example_handle example_script) [] 0
             eq_refl ltac:(lia)).
  - apply (wait_nonpositive_timeout (example_handle example_script) [] (-3)
             eq_refl ltac:(lia)).
Defined.

(** ** How a wait ends *)

Lemma not_in_progress (status : Status) :
  in_progress status = false ->
  State status = "FAILED" \/ State status = "CANCELLED"
  \/ State status = "SUCCEEDED".
Proof.
  unfold in_progress. intros H.
  destruct (State status =? "FAILED")%string eqn:E1;
    [left; now apply String.eqb_eq|].
  destruct (State status =? "CANCELLED")%string eqn:E2;
    [right; left; now apply String.eqb_eq|].
  destruct (State status =? "SUCCEEDED")%string eqn:E3;
    [right; right; now apply String.eqb_eq|].
  discriminate H.
Qed.

(** Among the [n] next polls, either there is a first one that is not in
    progress, or all are in progress. *)
Lemma first_terminal (h : QueryExecution) (w : World) (n : nat) :
  (exists k, (k < n)%nat /\ in_progress (poll h w k) = false
             /\ forall j, (j < k)%nat -> in_progress (poll h w j) = true)
  \/ (forall j, (j < n)%nat -> in_progress (poll h w j) = true).
Proof.
  induction n as [|n [(k & Hk & Hf & Hb) | Hall]].
  - right. intros j Hj. lia.
  - left. exists k. repeat split; auto.
  - destruct (in_progress (poll h w n)) eqn:En.
    + right. intros j Hj.
      destruct (Nat.eq_dec j n) as [-> | Hne]; [exact En | apply Hall; lia].
    + left. exists n. repeat split; auto.
Qed.

(** A wait whose poll [k] is the first not in progress ends there. *)
Lemma wait_ends_at (t : Z) (k : nat) (h : QueryExecution) (w : World) :
  waited h = false ->
  (1 <= k)%nat -> Z.of_nat k <= t ->
  (forall j, (j < k - 1)%nat -> in_progress (poll h w j) = true) ->
  in_progress (poll h w (k - 1)) = false ->
  let id := query_execution_id h in
  let status := poll h w (k - 1) in
  let w' := (w ++ polls id k)%list in
  (State status = "FAILED"
   /\ wait t (h, w)
      = (inl (Exception (failed_message id (reason_of status))), (h, w')))
  \/ (State status = "CANCELLED"
      /\ wait t (h, w)
         = (inl (Exception (canceled_message id (reason_of status))), (h, w')))
  \/ (State status = "SUCCEEDED"
      /\ wait t (h, w) = (inr tt, (confirmed h, w'))).
Proof.
  intros Hw Hk Hkt Hp Hn id status w'. subst id status w'.
  rewrite (wait_reaches t k h w Hw Hk Hkt Hp), wait_loop_step. cbv zeta.
  rewrite poll_after_sleepy, polls_eq by exact Hk.
  destruct (not_in_progress _ Hn) as [E | [E | E]]; rewrite E;
    cbn [String.eqb Ascii.eqb Bool.eqb]; auto.
Qed.

(** A wait all of whose polls are in progress runs out of iterations. *)
Lemma wait_exhausts (t : Z) (h : QueryExecution) (w : World) :
  waited h = false ->
  (forall j, (j < Z.to_nat t)%nat -> in_progress (poll h w j) = true) ->
  wait t (h, w)
  = (inl (Exception (timeout_message (query_execution_id h) t)),
     (h, (w ++ polls (query_execution_id h) (Z.to_nat t))%list)).
Proof.
  intros Hw Hp.
  destruct (Z.to_nat t) as [|n] eqn:En.
  - rewrite (wait_unconfirmed _ _ _ Hw), En. cbn [wait_loop polls].
    unfold bind, self, raise. cbn [fst snd]. now rewrite app_nil_r.
  - rewrite (wait_reaches t (S n) h w Hw); [| lia | lia |].
    2:{ intros j Hj. apply Hp. lia. }
    rewrite wait_loop_step. cbv zeta. rewrite poll_after_sleepy.
    destruct (in_progress_states _ (Hp (S n - 1)%nat ltac:(lia)))
      as (-> & -> & ->).
    replace (Z.of_nat (S n - 1) =? t - 1)%Z with true
      by (symmetry; apply Z.eqb_eq; lia).
    cbn [negb]. rewrite polls_eq by lia.
    replace (Z.to_nat t - S n)%nat with 0%nat by lia.
    cbn [wait_loop]. unfold bind, self, raise. cbn [fst snd]. reflexivity.
Qed.

Lemma wait_ends (t : Z) (h : QueryExecution) (w : World) :
  waited h = false -> wait_end t h w (wait t (h, w)).
Proof.
  intros Hw.
  destruct (first_terminal h w (Z.to_nat t)) as [(k & Hk & Hf & Hb) | Hall].
  - assert (Hb' : forall j, (j < S k - 1)%nat -> in_progress (poll h w j) = true)
      by (intros j Hj; apply Hb; lia).
    assert (Hf' : in_progress (poll h w (S k - 1)) = false)
      by (replace (S k - 1)%nat with k by lia; exact Hf).
    destruct (wait_ends_at t (S k) h w Hw ltac:(lia) ltac:(lia) Hb' Hf')
      as [[E ->] | [[E ->] | [E ->]]].
    + apply end_failed; auto. lia.
    + apply end_cancelled; auto. lia.
    + apply end_succeeded; auto. lia.
  - rewrite (wait_exhausts t h w Hw Hall). now apply end_timeout.
Qed.

(** What a wait adds to the world: some polls of its execution, at most as
    many as the timeout. *)
Lemma wait_world (t : Z) (h : QueryExecution) (w : World) :
  exists k, (k <= Z.to_nat t)%nat
            /\ snd (snd (wait t (h, w)))
               = (w ++ polls (query_execution_id h) k)%list.
Proof.
  destruct (waited h) eqn:Hw.
  - exists 0%nat. rewrite (wait_confirmed _ _ _ Hw). cbn [snd polls].
    rewrite app_nil_r. split; [lia | reflexivity].
  - destruct (wait_ends t h w Hw) as [k Hk _ _ | k Hk _ _ | k Hk _ _ | _].
    + exists k. split; [lia | reflexivity].
    + exists k. split; [lia | reflexivity].
    + exists k. split; [lia | reflexivity].
    + exists (Z.to_nat t). split; [lia | reflexivity].
Qed.

Lemma start_calls_app (w1 w2 : World) :
  start_calls (w1 ++ w2)%list = (start_calls w1 + start_calls w2)%nat.
Proof. unfold start_calls. now rewrite filter_app, length_app. Qed.

Lemma results_calls_app (w1 w2 : World) :
  results_calls (w1 ++ w2)%list = (results_calls w1 + results_calls w2)%nat.
Proof. unfold results_calls. now rewrite filter_app, length_app. Qed.

Lemma polls_events (id : string) (k : nat) :
  Forall (fun e => e = EvStatus id \/ e = EvSleep 1) (polls id k).
Proof.
  destruct k as [|j]; [constructor|]. unfold polls.
  apply Forall_app. split; [| constructor; [now left | constructor]].
  induction j as [|j IH]; cbn [sleepy_polls]; [constructor|].
  constructor; [now left|]. constructor; [now right | exact IH].
Qed.

Lemma start_calls_polls (id : string) (k : nat) : start_calls (polls id k) = 0%nat.
Proof.
  unfold start_calls.
  induction (polls_events id k) as [|e l [-> | ->] _ IH]; cbn; auto.
Qed.

Lemma results_calls_polls (id : string) (k : nat) :
  results_calls (polls id k) = 0%nat.
Proof.
  unfold results_calls.
  induction (polls_events id k) as [|e l [-> | ->] _ IH]; cbn; auto.
Qed.

(** What a wait does to its handle: nothing, or it sets the flag. *)
Lemma wait_handle (t : Z) (h : QueryExecution) (w : World) :
  fst (snd (wait t (h, w))) = h
  \/ (fst (snd (wait t (h, w))) = confirmed h /\ fst (wait t (h, w)) = inr tt).
Proof.
  destruct (waited h) eqn:Hw.
  - left. now rewrite (wait_confirmed _ _ _ Hw).
  - destruct (wait_ends t h w Hw); cbn [fst snd]; auto.
Qed.

(** ** More about [QueryExecution.wait] *)

(** X1.  Whatever the service answers and whatever the timeout [t], a wait
    adds to the world [k] polls of its own execution for some [k] not above
    [t], with a sleep of one second between two polls and none after the
    last: it never polls more than [t] times and sleeps exactly once less
    than it polls. *)
Theorem wait_polls_at_most_timeout (t : Z) (h : QueryExecution) (w : World) :
  exists k,
    (k <= Z.to_nat t)%nat
    /\ snd (snd (wait t (h, w))) = (w ++ polls (query_execution_id h) k)%list
    /\ status_calls (snd (snd (wait t (h, w)))) = (status_calls w + k)%nat
    /\ sleeps (snd (snd (wait t (h, w)))) = (sleeps w + (k - 1))%nat
    /\ slept_seconds (snd (snd (wait t (h, w))))
       = slept_seconds w + Z.of_nat (k - 1).
Proof.
  destruct (wait_world t h w) as (k & Hk & ->). exists k.
  rewrite status_calls_app, sleeps_app, slept_seconds_app.
  rewrite status_calls_polls, sleeps_polls, slept_seconds_polls. auto.
Qed.

(** X2.  A wait submits no query and fetches no results, whatever its
    outcome: it only polls the status of its own execution and sleeps one
    second at a time. *)
Theorem wait_only_polls_and_sleeps (t : Z) (h : QueryExecution) (w : World) :
  exists events,
    snd (snd (wait t (h, w))) = (w ++ events)%list
    /\ Forall (fun e => e = EvStatus (query_execution_id h) \/ e = EvSleep 1)
         events
    /\ start_calls (snd (snd (wait t (h, w)))) = start_calls w
    /\ results_calls (snd (snd (wait t (h, w)))) = results_calls w.
Proof.
  destruct (wait_world t h w) as (k & _ & ->).
  exists (polls (query_execution_id h) k).
  rewrite start_calls_app, results_calls_app.
  rewrite start_calls_polls, results_calls_polls.
  repeat split; [apply polls_events | lia | lia].
Qed.

(** X3.  A wait never changes the client or the execution id of its
    handle, and it changes the flag only to set it, which it does only
    when it returns normally. *)
Theorem wait_keeps_identity (t : Z) (h : QueryExecution) (w : World) :
  let h' := fst (snd (wait t (h, w))) in
  client h' = client h
  /\ query_execution_id h' = query_execution_id h
  /\ (waited h = true -> waited h' = true)
  /\ (waited h' <> waited h -> fst (wait t (h, w)) = inr tt).
Proof.
  intros h'. subst h'.
  destruct (wait_handle t h w) as [-> | [-> E]].
  - repeat split; auto. intros H. now contradiction H.
  - repeat split; auto.
Qed.

(** X4.  A wait on an unconfirmed handle returns normally only if the
    service did report SUCCEEDED: at some poll [k] within the timeout, the
    polls before it being in progress; the handle is then confirmed and the
    world has grown by these [k] polls. *)
Theorem wait_success_was_reported
    (t : Z) (h : QueryExecution) (w : World) s' :
  waited h = false ->
  wait t (h, w) = (inr tt, s') ->
  exists k,
    (1 <= k)%nat /\ Z.of_nat k <= t
    /\ (forall j, (j < k - 1)%nat -> in_progress (poll h w j) = true)
    /\ State (poll h w (k - 1)) = "SUCCEEDED"
    /\ s' = (confirmed h, (w ++ polls (query_execution_id h) k)%list).
Proof.
  intros Hw E. pose proof (wait_ends t h w Hw) as H. rewrite E in H.
  inversion H as [ | | k Hk Hp Hs | ]; subst.
  exists k. repeat split; auto; lia.
Qed.

(** X5.  A wait raises nothing but its three [Exception]s, each for its
    cause: the message of failure when the first poll not in progress
    reports FAILED, the one of cancellation when it reports CANCELLED, and
    the one of timeout when all the polls the timeout allows are in
    progress. *)
Theorem wait_raises_for_a_cause
    (t : Z) (h : QueryExecution) (w : World) (e : PyExc) s' :
  wait t (h, w) = (inl e, s') ->
  let id := query_execution_id h in
  (exists k,
      (1 <= k <= Z.to_nat t)%nat
      /\ (forall j, (j < k - 1)%nat -> in_progress (poll h w j) = true)
      /\ ((State (poll h w (k - 1)) = "FAILED"
           /\ e = Exception ("Athena execution " ++ id ++ " is failed. "
                               ++ reason_of (poll h w (k - 1))))
          \/ (State (poll h w (k - 1)) = "CANCELLED"
              /\ e = Exception ("Athena execution " ++ id ++ " is canceled. "
                                  ++ reason_of (poll h w (k - 1))))))
  \/ ((forall j, (j < Z.to_nat t)%nat -> in_progress (poll h w j) = true)
      /\ e = Exception ("Athena execution " ++ id ++ " is not processed in "
                          ++ str_int t ++ " seconds.")).
Proof.
  intros E id. subst id.
  destruct (waited h) eqn:Hw.
  { rewrite (wait_confirmed _ _ _ Hw) in E. discriminate E. }
  pose proof (wait_ends t h w Hw) as H. rewrite E in H.
  inversion H as [k Hk Hp Hs | k Hk Hp Hs | | Hp]; subst.
  - left. exists k. rewrite failed_message_eq. auto.
  - left. exists k. rewrite canceled_message_eq. auto.
  - right. rewrite timeout_message_eq. auto.
Qed.

(** X6.  A longer timeout does not change a wait that returns normally:
    same handle, same polls, same sleeps. *)
Theorem wait_success_with_longer_timeout
    (t t' : Z) (h : QueryExecution) (w : World) s' :
  wait t (h, w) = (inr tt, s') ->
  t <= t' ->
  wait t' (h, w) = (inr tt, s').
Proof.
  intros E Ht.
  destruct (waited h) eqn:Hw.
  { rewrite (wait_confirmed t _ _ Hw) in E.
    rewrite (wait_confirmed t' _ _ Hw). exact E. }
  pose proof (wait_ends t h w Hw) as H. rewrite E in H.
  inversion H as [ | | k Hk Hp Hs | ]; subst.
  assert (Hn : in_progress (poll h w (k - 1)) = false).
  { unfold in_progress. rewrite Hs. reflexivity. }
  destruct (wait_ends_at t' k h w Hw ltac:(lia) ltac:(lia) Hp Hn)
    as [[F _] | [[F _] | [_ ->]]].
  - rewrite Hs in F. discriminate F.
  - rewrite Hs in F. discriminate F.
  - reflexivity.
Qed.

(** ** [QueryExecution.get_result] *)

Lemma wait_results_calls (t : Z) (h : QueryExecution) (w : World) :
  results_calls (snd (snd (wait t (h, w)))) = results_calls w.
Proof.
  destruct (wait_world t h w) as (k & _ & ->).
  rewrite results_calls_app, results_calls_polls. lia.
Qed.

Lemma get_result_after_wait (t : Z) (h h' : QueryExecution) (w w' : World) :
  wait t (h, w) = (inr tt, (h', w')) ->
  get_result t (h, w)
  = (inr (get_query_results (client h) (results_calls w)
            (query_execution_id h)),
     (h', (w' ++ [EvResults (query_execution_id h)])%list)).
Proof.
  intros E.
  pose proof (wait_results_calls t h w) as Hr.
  pose proof (wait_handle t h w) as Hh.
  rewrite E in Hr, Hh. cbn [fst snd] in Hr, Hh.
  unfold get_result, bind. rewrite E.
  unfold call_get_query_results. cbn [fst snd]. rewrite Hr.
  destruct Hh as [-> | [-> _]]; reflexivity.
Qed.

(** X7.  When its wait returns normally, [get_result] fetches the results
    of its execution once, after the wait, and returns the response of the
    service as it is; the results call is the next one for the service. *)
Theorem get_result_fetches_once
    (t : Z) (h h' : QueryExecution) (w w' : World) :
  wait t (h, w) = (inr tt, (h', w')) ->
  let id := query_execution_id h in
  get_result t (h, w)
  = (inr (get_query_results (client h) (results_calls w) id),
     (h', (w' ++ [EvResults id])%list))
  /\ results_calls (w' ++ [EvResults id])%list = (results_calls w + 1)%nat
  /\ status_calls (w' ++ [EvResults id])%list = status_calls w'.
Proof.
  intros E id. subst id. split; [now apply get_result_after_wait|].
  pose proof (wait_results_calls t h w) as Hr. rewrite E in Hr.
  cbn [snd] in Hr.
  rewrite results_calls_app, status_calls_app, Hr. cbn. lia.
Qed.

(** X8.  When its wait raises, [get_result] raises the same exception and
    fetches nothing: no results call is made and the handle is as it
    was. *)
Theorem get_result_raises_without_fetching
    (t : Z) (h : QueryExecution) (w : World) (e : PyExc) s' :
  wait t (h, w) = (inl e, s') ->
  get_result t (h, w) = (inl e, s')
  /\ results_calls (snd s') = results_calls w
  /\ fst s' = h.
Proof.
  intros E.
  pose proof (wait_results_calls t h w) as Hr.
  pose proof (wait_handle t h w) as Hh.
  rewrite E in Hr, Hh. cbn [fst snd] in Hr, Hh.
  unfold get_result, bind. rewrite E. repeat split; auto.
  destruct Hh as [H | [_ H]]; [exact H | discriminate H].
Qed.

(** X9.  The results are not kept: after a [get_result] that returned, a
    second one on the same handle, with any timeout, polls nothing and
    sleeps nothing, and asks the service for the results again. *)
Theorem get_result_again_fetches_again
    (t t' : Z) (h h1 : QueryExecution) (w w1 : World) (r : QueryResults) :
  get_result t (h, w) = (inr r, (h1, w1)) ->
  let id := query_execution_id h in
  get_result t' (h1, w1)
  = (inr (get_query_results (client h) (results_calls w + 1) id),
     (h1, (w1 ++ [EvResults id])%list)).
Proof.
  intros E id. subst id.
  destruct (wait t (h, w)) as [[e | []] [h' w']] eqn:Ew.
  { unfold get_result, bind in E. rewrite Ew in E. discriminate E. }
  pose proof (wait_return_confirms _ _ _ _ Ew) as Hc. cbn [fst] in Hc.
  pose proof (wait_results_calls t h w) as Hr.
  pose proof (wait_handle t h w) as Hh.
  rewrite Ew in Hr, Hh. cbn [fst snd] in Hr, Hh.
  rewrite (get_result_after_wait _ _ _ _ _ Ew) in E.
  injection E as _ <- <-.
  rewrite (get_result_after_wait t' h' h'
             (w' ++ [EvResults (query_execution_id h)])%list
             (w' ++ [EvResults (query_execution_id h)])%list
             (wait_confirmed _ _ _ Hc)).
  rewrite results_calls_app, Hr.
  change (results_calls [EvResults (query_execution_id h)]) with 1%nat.
  destruct Hh as [-> | [-> _]]; reflexivity.
Qed.

(** ** [AthenaClient.execute_sync] and what the client submits *)

Lemma execute_sync_eq (self : AthenaClient) (query : string) (t : Z) (w : World) :
  let id :=
    start_query_execution (athena_client self) (start_calls w)
      query (db_name self) (output_location self) in
  let h0 := QueryExecution_init (athena_client self) id in
  let w0 := (w ++ [EvStart query (db_name self) (output_location self)])%list in
  execute_sync self query t w
  = (fst (wait t (h0, w0)), snd (snd (wait t (h0, w0)))).
Proof.
  cbv zeta. unfold execute_sync, bind, execute, on_handle.
  destruct (wait t _) as [r [h' w']]. reflexivity.
Qed.

Lemma status_calls_start (w : World) (q d o : string) :
  status_calls (w ++ [EvStart q d o])%list = status_calls w.
Proof. rewrite status_calls_app. cbn. lia. Qed.

(** X10.  [execute_sync] with a timeout that is not positive still submits
    the statement, and then raises the exception of timeout for the new
    execution without having asked for its status once. *)
Theorem execute_sync_nonpositive_timeout
    (self : AthenaClient) (query : string) (t : Z) (w : World) :
  t <= 0 ->
  let id :=
    start_query_execution (athena_client self) (start_calls w)
      query (db_name self) (output_location self) in
  execute_sync self query t w
  = (inl (Exception ("Athena execution " ++ id ++ " is not processed in "
                       ++ str_int t ++ " seconds.")),
     (w ++ [EvStart query (db_name self) (output_location self)])%list).
Proof.
  intros Ht id. subst id. rewrite execute_sync_eq. cbv zeta.
  rewrite wait_exhausts; [| reflexivity | intros j Hj; lia].
  replace (Z.to_nat t) with 0%nat by lia.
  cbn [fst snd polls query_execution_id QueryExecution_init].
  now rewrite timeout_message_eq, app_nil_r.
Qed.

(** X11.  [execute_sync] returns normally when the service reports
    SUCCEEDED for the execution it has just submitted at a poll [k] within
    the timeout, the polls before being in progress; the world then holds
    the submission followed by these [k] polls. *)
Theorem execute_sync_succeeds
    (self : AthenaClient) (query : string) (t : Z) (k : nat) (w : World) :
  let id :=
    start_query_execution (athena_client self) (start_calls w)
      query (db_name self) (output_location self) in
  let answer j :=
    get_query_execution (athena_client self) (status_calls w + j) id in
  (1 <= k)%nat -> Z.of_nat k <= t ->
  (forall j, (j < k - 1)%nat -> in_progress (answer j) = true) ->
  State (answer (k - 1)%nat) = "SUCCEEDED" ->
  execute_sync self query t w
  = (inr tt,
     (w ++ EvStart query (db_name self) (output_location self)
        :: polls id k)%list).
Proof.
  intros id answer Hk Hkt Hp Hs. subst id answer.
  rewrite execute_sync_eq. cbv zeta.
  set (h0 := QueryExecution_init _ _).
  set (w0 := (w ++ [EvStart _ _ _])%list) in *.
  change (list Event) with World in (type of w0).
  assert (Hpoll : forall j, poll h0 w0 j
            = get_query_execution (athena_client self) (status_calls w + j)
                (query_execution_id h0)).
  { intros j. unfold poll, w0. now rewrite status_calls_start. }
  assert (Hn : in_progress (poll h0 w0 (k - 1)) = false).
  { unfold in_progress. rewrite Hpoll. cbn [query_execution_id h0 QueryExecution_init].
    rewrite Hs. reflexivity. }
  destruct (wait_ends_at t k h0 w0 eq_refl Hk Hkt
              ltac:(intros j Hj; rewrite Hpoll; now apply Hp) Hn)
    as [[F _] | [[F _] | [_ E]]];
    [| | refine (eq_trans (f_equal (fun p => (fst p, snd (snd p))) E) _)].
  - rewrite Hpoll in F. cbn [query_execution_id h0 QueryExecution_init] in F.
    rewrite Hs in F. discriminate F.
  - rewrite Hpoll in F. cbn [query_execution_id h0 QueryExecution_init] in F.
    rewrite Hs in F. discriminate F.
  - cbn [fst snd]. unfold w0. now rewrite <- app_assoc.
Qed.

Lemma get_result_world (t : Z) (h : QueryExecution) (w : World) :
  exists rest,
    snd (snd (get_result t (h, w))) = (w ++ rest)%list
    /\ start_calls rest = 0%nat.
Proof.
  destruct (wait_world t h w) as (k & _ & Hk).
  pose proof (start_calls_polls (query_execution_id h) k) as Hs.
  unfold get_result, bind.
  destruct (wait t (h, w)) as [[e | []] [h' w']]; cbn [snd] in *; subst w'.
  - eexists. split; [reflexivity | exact Hs].
  - unfold call_get_query_results. cbn [fst snd].
    exists (polls (query_execution_id h) k
            ++ [EvResults (query_execution_id h')])%list.
    rewrite app_assoc, start_calls_app, Hs. split; reflexivity.
Qed.

Lemma execute_select_world (self : AthenaClient) (query : string) (w : World) :
  let id :=
    start_query_execution (athena_client self) (start_calls w)
      query (db_name self) (output_location self) in
  let h0 := QueryExecution_init (athena_client self) id in
  let w0 := (w ++ [EvStart query (db_name self) (output_location self)])%list in
  snd (_execute_select self query w) = snd (snd (get_result 20 (h0, w0))).
Proof.
  cbv zeta. unfold _execute_select, bind at 1. unfold execute.
  unfold bind at 1. unfold on_handle.
  destruct (get_result 20 _) as [[e | response] [h1 w1]]; [reflexivity|].
  unfold bind, lift, ret. cbn [snd].
  destruct (table_of (Rows response)) as [e | [|r rs]]; reflexivity.
Qed.

Lemma get_count_world (self : AthenaClient) (w : World) :
  snd (get_count self w) = snd (_execute_select self count_query w).
Proof.
  unfold get_count, bind at 1.
  destruct (_execute_select self count_query w) as [[e | [cols rows]] w1];
    [reflexivity|].
  unfold bind, lift. cbn [snd].
  destruct (index0 rows) as [e | row]; [reflexivity|].
  destruct (index0 row) as [e | cell]; reflexivity.
Qed.

Lemma get_some_world (self : AthenaClient) (w : World) :
  snd (get_some self w) = snd (_execute_select self some_query w).
Proof.
  unfold get_some, bind.
  destruct (_execute_select self some_query w) as [[e | [cols rows]] w1];
    reflexivity.
Qed.

Lemma submits_once_select (self : AthenaClient) (query : string) (w : World) :
  submits_once self query w (snd (_execute_select self query w)).
Proof.
  rewrite execute_select_world. cbv zeta.
  destruct (get_result_world 20
              (QueryExecution_init (athena_client self)
                 (start_query_execution (athena_client self) (start_calls w)
                    query (db_name self) (output_location self)))
              (w ++ [EvStart query (db_name self) (output_location self)])%list)
    as (rest & E & Hs).
  exists rest. split; [| exact Hs].
  etransitivity; [exact E|]. now rewrite <- app_assoc.
Qed.

(** X12.  Every method of the client submits exactly one statement, first
    of all, with the database and the output location the client was built
    with: [execute_sync], the select helper, [get_count], [get_some] and
    [add_partition], whatever their outcome. *)
Theorem client_submits_once (self : AthenaClient) (w : World) :
  (forall query t,
      submits_once self query w (snd (execute_sync self query t w)))
  /\ (forall query,
         submits_once self query w (snd (_execute_select self query w)))
  /\ submits_once self count_query w (snd (get_count self w))
  /\ submits_once self some_query w (snd (get_some self w))
  /\ (forall partition directory,
         submits_once self
           (query_adding_partition_to_athena self partition directory) w
           (snd (add_partition self partition directory w))).
Proof.
  repeat split.
  - intros query t. rewrite execute_sync_eq. cbv zeta. cbn [snd].
    match goal with |- context [wait t (?h, ?w0)] =>
      destruct (wait_world t h w0) as (k & _ & E);
      pose proof (start_calls_polls (query_execution_id h) k) as Hs;
      exists (polls (query_execution_id h) k)
    end.
    split; [| exact Hs].
    etransitivity; [exact E|]. now rewrite <- app_assoc.
  - intros query. apply submits_once_select.
  - rewrite get_count_world. apply submits_once_select.
  - rewrite get_some_world. apply submits_once_select.
  - intros partition directory. exists []. split; reflexivity.
Qed.

(** ** The select helper when things go wrong *)

Lemma cells_of_missing (data : list Datum) :
  Exists (fun cell => VarCharValue cell = None) data ->
  cells_of data = inl (KeyError "VarCharValue").
Proof.
  induction data as [|cell data IH]; intros H; [inversion H|].
  cbn [cells_of].
  destruct (VarCharValue cell) as [v|] eqn:Ev; [| reflexivity].
  inversion H as [? ? H0 | ? ? H0]; subst; [congruence|].
  now rewrite (IH H0).
Qed.

Lemma cells_of_error (data : list Datum) (e : PyExc) :
  cells_of data = inl e -> e = KeyError "VarCharValue".
Proof.
  induction data as [|cell data IH]; cbn [cells_of]; [discriminate|].
  destruct (VarCharValue cell); [| congruence].
  destruct (cells_of data); [| discriminate].
  intros H. injection H as <-. now apply IH.
Qed.

Lemma table_of_missing (rows : list Row) :
  Exists (fun row => Exists (fun cell => VarCharValue cell = None) (Data row))
    rows ->
  table_of rows = inl (KeyError "VarCharValue").
Proof.
  induction rows as [|row rows IH]; intros H; [inversion H|].
  cbn [table_of].
  destruct (cells_of (Data row)) as [e | r] eqn:Ec.
  - now rewrite (cells_of_error _ _ Ec).
  - inversion H as [? ? H0 | ? ? H0]; subst.
    + rewrite (cells_of_missing _ H0) in Ec. discriminate Ec.
    + now rewrite (IH H0).
Qed.

(** X13.  When a cell of the fetched result set, in the header or in any
    data row, carries no ['VarCharValue'] (the service leaves it out for a
    null), the select helper raises [KeyError] for that key, whatever the
    other rows are. *)
Theorem execute_select_null_cell
    (self : AthenaClient) (query : string) (w w0 : World)
    (h0 : QueryExecution) (response : QueryResults)
    (s1 : QueryExecution * World) :
  execute self query w = (inr h0, w0) ->
  get_result 20 (h0, w0) = (inr response, s1) ->
  Exists (fun row => Exists (fun cell => VarCharValue cell = None) (Data row))
    (Rows response) ->
  _execute_select self query w = (inl (KeyError "VarCharValue"), snd s1).
Proof.
  intros He Hg Hr. unfold _execute_select, bind at 1. rewrite He.
  unfold bind at 1, on_handle. rewrite Hg. destruct s1 as [h1 w1].
  unfold bind, lift, ret. now rewrite (table_of_missing _ Hr).
Qed.

(** X14.  When the fetched result set has no row at all, not even a
    header, the select helper raises the [IndexError] of taking the first
    element of an empty list. *)
Theorem execute_select_empty_result
    (self : AthenaClient) (query : string) (w w0 : World)
    (h0 : QueryExecution) (response : QueryResults)
    (s1 : QueryExecution * World) :
  execute self query w = (inr h0, w0) ->
  get_result 20 (h0, w0) = (inr response, s1) ->
  Rows response = [] ->
  _execute_select self query w
  = (inl (IndexError "list index out of range"), snd s1)
  /\ results_calls (snd s1) = (results_calls w + 1)%nat.
Proof.
  intros He Hg Hr. split.
  - unfold _execute_select, bind at 1. rewrite He.
    unfold bind at 1, on_handle. rewrite Hg. destruct s1 as [h1 w1].
    unfold bind, lift, ret. rewrite Hr. reflexivity.
  - destruct s1 as [h1 w1].
    destruct (wait 20 (h0, w0)) as [[e | []] [h' w']] eqn:Ew.
    { unfold get_result, bind in Hg. rewrite Ew in Hg. discriminate Hg. }
    pose proof (wait_results_calls 20 h0 w0) as Hc. rewrite Ew in Hc.
    cbn [snd] in Hc.
    rewrite (get_result_after_wait _ _ _ _ _ Ew) in Hg.
    injection Hg as _ _ <-. cbn [snd].
    rewrite results_calls_app, Hc.
    unfold execute in He. injection He as _ <-.
    rewrite results_calls_app. cbn. lia.
Qed.

(** X15.  When the wait for the submitted statement raises (the query
    failed, was cancelled, or did not end in 20 polls), the select helper
    raises the same exception and has fetched no results. *)
Theorem execute_select_propagates_wait_error
    (self : AthenaClient) (query : string) (w w0 : World)
    (h0 : QueryExecution) (e : PyExc) (s1 : QueryExecution * World) :
  execute self query w = (inr h0, w0) ->
  wait 20 (h0, w0) = (inl e, s1) ->
  _execute_select self query w = (inl e, snd s1)
  /\ results_calls (snd s1) = results_calls w.
Proof.
  intros He Hw. split.
  - unfold _execute_select, bind at 1. rewrite He.
    unfold bind at 1, on_handle, get_result, bind. rewrite Hw.
    destruct s1 as [h1 w1]. reflexivity.
  - pose proof (wait_results_calls 20 h0 w0) as Hc. rewrite Hw in Hc.
    cbn [snd] in Hc. rewrite Hc.
    unfold execute in He. injection He as _ <-.
    rewrite results_calls_app. cbn. lia.
Qed.

(** ** [int] after [str] *)

Lemma lstrip_no_space (s : list ascii) :
  Forall (fun c => is_space c = false) s -> lstrip s = s.
Proof.
  intros H. destruct H as [|c s Hc _]; [reflexivity|].
  cbn [lstrip]. now rewrite Hc.
Qed.

Lemma strip_no_space (s : list ascii) :
  Forall (fun c => is_space c = false) s -> strip s = s.
Proof.
  intros H. unfold strip. rewrite (lstrip_no_space s H).
  rewrite lstrip_no_space by now apply Forall_rev.
  apply rev_involutive.
Qed.

Lemma digits_no_space (d : Decimal.uint) :
  Forall (fun c => is_space c = false)
    (list_ascii_of_string (NilEmpty.string_of_uint d)).
Proof.
  induction d; cbn [NilEmpty.string_of_uint list_ascii_of_string];
    constructor; auto.
Qed.

Lemma digits_value_uint (d : Decimal.uint) :
  forall acc : Z,
    digits_value (list_ascii_of_string (NilEmpty.string_of_uint d)) acc true
    = Some (Z.of_N (Unsigned.of_lu (Decimal.rev d))
            + acc * 10 ^ Z.of_N (Unsigned.usize d)).
Proof.
  induction d; intros acc;
    [cbn; f_equal; lia | ..];
    cbn [NilEmpty.string_of_uint list_ascii_of_string];
    unfold digits_value; fold digits_value;
    change (is_digit _) with true; cbv iota;
    rewrite IHd; f_equal;
    match goal with
    | |- context [Z.of_nat ?n] =>
        let v := eval vm_compute in (Z.of_nat n) in
        change (Z.of_nat n) with v
    end;
    match goal with
    | |- context [Decimal.rev (?c d)] =>
        change (Decimal.rev (c d)) with (Decimal.revapp d (c Decimal.Nil));
        rewrite (Unsigned.of_lu_revapp d (c Decimal.Nil));
        let v := eval vm_compute in (Z.of_N (Unsigned.of_lu (c Decimal.Nil))) in
        rewrite N2Z.inj_add, N2Z.inj_mul, N2Z.inj_pow;
        change (Z.of_N (Unsigned.of_lu (c Decimal.Nil))) with v
    end;
    cbn [Unsigned.usize];
    rewrite N2Z.inj_succ, Z.pow_succ_r by lia;
    change (Z.of_N 10) with 10; ring.
Qed.

Lemma int_of_digits (d : Decimal.uint) :
  d <> Decimal.Nil ->
  int (NilEmpty.string_of_uint d) = inr (Z.of_N (Pos.of_uint d)).
Proof.
  intros Hd. unfold int.
  rewrite (strip_no_space _ (digits_no_space d)).
  rewrite Unsigned.of_uint_alt.
  pose proof (digits_value_uint d 0) as H. rewrite Z.mul_0_l, Z.add_0_r in H.
  destruct d; [now contradiction Hd | ..];
    cbn [NilEmpty.string_of_uint list_ascii_of_string] in *;
    unfold digits_value in *; fold digits_value in *;
    change (is_digit _) with true in *; cbv iota in *;
    rewrite H; reflexivity.
Qed.

Lemma int_of_minus_digits (d : Decimal.uint) :
  d <> Decimal.Nil ->
  int (String "-" (NilEmpty.string_of_uint d))
  = inr (- Z.of_N (Pos.of_uint d)).
Proof.
  intros Hd. unfold int. cbn [list_ascii_of_string].
  rewrite strip_no_space
    by (constructor; [reflexivity | apply digits_no_space]).
  rewrite Unsigned.of_uint_alt.
  pose proof (digits_value_uint d 0) as H. rewrite Z.mul_0_l, Z.add_0_r in H.
  cbv iota beta.
  destruct d; [now contradiction Hd | ..];
    cbn [NilEmpty.string_of_uint list_ascii_of_string] in *;
    unfold digits_value in *; fold digits_value in *;
    change (is_digit _) with true in *; cbv iota in *;
    rewrite H; reflexivity.
Qed.

(** [int(str(n))] is [n]. *)
Lemma int_str_int (n : Z) : int (str_int n) = inr n.
Proof.
  unfold str_int. destruct n as [|p|p]; [reflexivity | |];
    cbn [Z.to_int NilZero.string_of_int];
    pose proof (Unsigned.to_uint_nonnil p) as Hn;
    pose proof (Unsigned.of_to p) as Ho.
  - unfold NilZero.string_of_uint.
    destruct (Pos.to_uint p) eqn:E; [now contradiction Hn | ..];
      rewrite <- E in *; rewrite int_of_digits, Ho by exact Hn; reflexivity.
  - unfold NilZero.string_of_uint.
    destruct (Pos.to_uint p) eqn:E; [now contradiction Hn | ..];
      rewrite <- E in *; rewrite int_of_minus_digits, Ho by exact Hn;
      reflexivity.
Qed.

(** ** [AthenaClient.get_count] and [AthenaClient.get_some] *)

Lemma get_count_cell (self : AthenaClient) (w w0 : World)
    (h0 : QueryExecution) (response : QueryResults)
    (s1 : QueryExecution * World)
    (header : list string) (row : list string) (more : list (list string)) :
  execute self count_query w = (inr h0, w0) ->
  get_result 20 (h0, w0) = (inr response, s1) ->
  Rows response = map row_of (header :: row :: more) ->
  get_count self w
  = (match index0 row with inl e => inl e | inr cell => int cell end, snd s1).
Proof.
  intros He Hg Hr. unfold get_count, bind at 1.
  rewrite (execute_select_table self count_query w w0 h0 response s1 header
             (row :: more) He Hg Hr).
  unfold bind, lift. cbn [index0].
  destruct (index0 row); reflexivity.
Qed.


(** X17.  When the first cell of the first data row is the decimal text of
    an integer [n], as [str] writes it, negative or not, [get_count] returns
    [n]. *)
Theorem get_count_returns_the_count
    (self : AthenaClient) (w w0 : World)
    (h0 : QueryExecution) (response : QueryResults)
    (s1 : QueryExecution * World)
    (header : list string) (n : Z) (cells : list string)
    (more : list (list string)) :
  execute self count_query w = (inr h0, w0) ->
  get_result 20 (h0, w0) = (inr response, s1) ->
  Rows response = map row_of (header :: (str_int n :: cells) :: more) ->
  get_count self w = (inr n, snd s1).
Proof.
  intros He Hg Hr.
  rewrite (get_count_cell self w w0 h0 response s1 header (str_int n :: cells)
             more He Hg Hr).
  cbn [index0]. now rewrite int_str_int.
Qed.

(** X18.  When the first data row has no cell, [get_count] raises the
    [IndexError] of taking the first element of an empty list. *)
Theorem get_count_empty_row
    (self : AthenaClient) (w w0 : World)
    (h0 : QueryExecution) (response : QueryResults)
    (s1 : QueryExecution * World)
    (header : list string) (more : list (list string)) :
  execute self count_query w = (inr h0, w0) ->
  get_result 20 (h0, w0) = (inr response, s1) ->
  Rows response = map row_of (header :: [] :: more) ->
  get_count self w = (inl (IndexError "list index out of range"), snd s1).
Proof.
  intros He Hg Hr.
  now rewrite (get_count_cell self w w0 h0 response s1 header [] more
                 He Hg Hr).
Qed.

Lemma dict_get_set (k k' v : string) (d : PyDict) :
  dict_get k (dict_set k' v d)
  = if (k' =? k)%string then Some v else dict_get k d.
Proof.
  induction d as [|[k0 v0] d IH]; cbn [dict_set dict_get].
  - destruct (k' =? k)%string; reflexivity.
  - destruct (k0 =? k')%string eqn:E0; cbn [dict_get].
    + apply String.eqb_eq in E0. subst k0.
      destruct (k' =? k)%string; reflexivity.
    + rewrite IH. destruct (k0 =? k)%string eqn:E1; [| reflexivity].
      apply String.eqb_eq in E1. subst k0.
      now rewrite String.eqb_sym, E0.
Qed.

Lemma dict_set_new (k v : string) (d : PyDict) :
  ~ In k (map fst d) -> dict_set k v d = (d ++ [(k, v)])%list.
Proof.
  induction d as [|[k0 v0] d IH]; intros Hn; [reflexivity|].
  cbn [dict_set app]. cbn [map fst In] in Hn.
  destruct (k0 =? k)%string eqn:E.
  - apply String.eqb_eq in E. tauto.
  - rewrite IH by tauto. reflexivity.
Qed.

Lemma fold_dict_set_get (k : string) (pairs : list (string * string)) :
  forall d : PyDict,
    dict_get k (fold_left (fun d kv => dict_set (fst kv) (snd kv) d) pairs d)
    = match dict_get k (rev pairs) with
      | Some v => Some v
      | None => dict_get k d
      end.
Proof.
  induction pairs as [|[k0 v0] pairs IH]; intros d; [reflexivity|].
  cbn [fold_left rev fst snd]. rewrite IH, dict_get_set.
  assert (Happ : forall l1 l2,
             dict_get k (l1 ++ l2)%list
             = match dict_get k l1 with
               | Some v => Some v
               | None => dict_get k l2
               end).
  { induction l1 as [|[a b] l1 IHl]; intros l2; [reflexivity|].
    cbn [app dict_get]. destruct (a =? k)%string; auto. }
  rewrite Happ. cbn [dict_get].
  destruct (dict_get k (rev pairs)); [reflexivity|].
  destruct (k0 =? k)%string; reflexivity.
Qed.

Lemma fold_dict_set_distinct (pairs : list (string * string)) :
  forall d : PyDict,
    NoDup (map fst d ++ map fst pairs) ->
    fold_left (fun d kv => dict_set (fst kv) (snd kv) d) pairs d
    = (d ++ pairs)%list.
Proof.
  induction pairs as [|[k v] pairs IH]; intros d Hn.
  - now rewrite app_nil_r.
  - cbn [fold_left fst snd]. cbn [map fst] in Hn.
    assert (Hk : ~ In k (map fst d)).
    { intros Hin. apply NoDup_remove_2 in Hn. apply Hn.
      apply in_or_app. now left. }
    rewrite (dict_set_new k v d Hk), IH.
    + now rewrite <- app_assoc.
    + rewrite map_app. cbn [map fst]. now rewrite <- app_assoc.
Qed.

Lemma zip_keys_distinct (header row : list string) :
  NoDup header -> NoDup (map fst (zip header row)).
Proof.
  unfold zip. intros Hn. revert row.
  induction Hn as [|c header Hc Hn IH]; intros [|v row]; cbn; try constructor.
  - intros Hin. apply in_map_iff in Hin as [[a b] [Ha Hin]].
    cbn [fst] in Ha. subst a. apply in_combine_l in Hin. exact (Hc Hin).
  - apply IH.
Qed.

Lemma get_some_rows (self : AthenaClient) (w w0 : World)
    (h0 : QueryExecution) (response : QueryResults)
    (s1 : QueryExecution * World)
    (header : list string) (data : list (list string)) :
  execute self some_query w = (inr h0, w0) ->
  get_result 20 (h0, w0) = (inr response, s1) ->
  Rows response = map row_of (header :: data) ->
  get_some self w
  = (inr (map (fun row => dict (zip header row)) data), snd s1).
Proof.
  intros He Hg Hr. unfold get_some, bind.
  now rewrite (execute_select_table self some_query w w0 h0 response s1 header
                 data He Hg Hr).
Qed.

(** X19.  When the column names are distinct, [get_some] returns one
    mapping for each data row, in the order of the rows; each mapping pairs
    the columns, in their order, with the cells of the row, up to the
    shorter of the two.  A result set with the header only gives the empty
    list, not an error. *)
Theorem get_some_distinct_columns
    (self : AthenaClient) (w w0 : World)
    (h0 : QueryExecution) (response : QueryResults)
    (s1 : QueryExecution * World)
    (header : list string) (data : list (list string)) :
  execute self some_query w = (inr h0, w0) ->
  get_result 20 (h0, w0) = (inr response, s1) ->
  Rows response = map row_of (header :: data) ->
  NoDup header ->
  get_some self w = (inr (map (combine header) data), snd s1)
  /\ (data = [] -> get_some self w = (inr [], snd s1)).
Proof.
  intros He Hg Hr Hn.
  rewrite (get_some_rows self w w0 h0 response s1 header data He Hg Hr).
  split; [| now intros ->].
  f_equal. f_equal. apply map_ext. intros row. unfold dict.
  rewrite fold_dict_set_distinct; [reflexivity|].
  cbn [map app]. now apply zip_keys_distinct.
Qed.

(** X20.  When a column name occurs more than once, the mapping that
    [get_some] builds for a row keeps the cell of the last column of that
    name: looking a name up in the mapping gives what looking it up from
    the right in the zipped pairs gives. *)
Theorem get_some_last_column_wins
    (self : AthenaClient) (w w0 : World)
    (h0 : QueryExecution) (response : QueryResults)
    (s1 : QueryExecution * World)
    (header : list string) (data : list (list string)) :
  execute self some_query w = (inr h0, w0) ->
  get_result 20 (h0, w0) = (inr response, s1) ->
  Rows response = map row_of (header :: data) ->
  exists mappings,
    get_some self w = (inr mappings, snd s1)
    /\ List.length mappings = List.length data
    /\ forall i row mapping column,
         nth_error data i = Some row ->
         nth_error mappings i = Some mapping ->
         dict_get column mapping = dict_get column (rev (zip header row)).
Proof.
  intros He Hg Hr.
  rewrite (get_some_rows self w w0 h0 response s1 header data He Hg Hr).
  eexists. split; [reflexivity|]. split; [apply length_map|].
  intros i row mapping column Hrow Hmap.
  rewrite nth_error_map, Hrow in Hmap. injection Hmap as <-.
  unfold dict. rewrite fold_dict_set_get.
  destruct (dict_get column (rev (zip header row))); reflexivity.
Qed.

(** ** [Partition] in [add_partition] *)

(** X21.  For a partition built by [Partition] from a date and a type,
    [add_partition] submits the statement whose pairs are [created_at],
    with the date in ISO form, and then [type], both values between double
    quotes and nothing in them escaped. *)
Theorem add_partition_of_constructed_partition
    (self : AthenaClient) (created_at : date) (type directory : string)
    (w : World) :
  snd (add_partition self (Partition_init created_at type) directory w)
  = (w ++ [EvStart
             ("alter table athena_table_name add partition (created_at="
                ++ dquote ++ isoformat created_at ++ dquote ++ ", type="
                ++ dquote ++ type ++ dquote ++ ") location " ++ dquote
                ++ s3_bucket self ++ "/" ++ directory ++ dquote ++ ";")
             (db_name self) (output_location self)])%list.
Proof.
  unfold add_partition, execute. cbn [snd]. do 2 f_equal.
  rewrite query_adding_partition_eq.
  unfold double_quoted_location, Partition_init, render_pair.
  cbn [partitions map join fst snd str_val].
  rewrite !append_assoc. reflexivity.
Qed.

(** ** These theorems at work on the examples *)

Lemma wait_keeps_identity_witness :
  query_execution_id
    (fst (snd (wait 3 (example_handle example_script, [])))) = "abc"
  /\ fst (wait 3 (example_handle example_script, [])) = inr tt.
Proof.
  destruct (wait_keeps_identity 3 (example_handle example_script) [])
    as (_ & H2 & _ & H4).
  split; [exact H2 | apply H4; discriminate].
Defined.

Lemma wait_success_was_reported_witness :
  exists k,
    (1 <= k)%nat /\ Z.of_nat k <= 3
    /\ (forall j, (j < k - 1)%nat ->
          in_progress (poll (example_handle example_script) [] j) = true)
    /\ State (poll (example_handle example_script) [] (k - 1)) = "SUCCEEDED"
    /\ (confirmed (example_handle example_script),
        [EvStatus "abc"; EvSleep 1; EvStatus "abc"])
       = (confirmed (example_handle example_script),
          ([] ++ polls "abc" k)%list).
Proof.
  exact (wait_success_was_reported 3 (example_handle example_script) []
           (confirmed (example_handle example_script),
            [EvStatus "abc"; EvSleep 1; EvStatus "abc"])
           eq_refl eq_refl).
Defined.

Lemma wait_raises_for_a_cause_witness :
  (exists k,
      (1 <= k <= Z.to_nat 2)%nat
      /\ (forall j, (j < k - 1)%nat ->
            in_progress (poll (example_handle [mkStatus "CANCELLED" None]) [] j)
            = true)
      /\ ((State (poll (example_handle [mkStatus "CANCELLED" None]) [] (k - 1))
           = "FAILED"
           /\ Exception "Athena execution abc is canceled. No reason is given."
              = Exception ("Athena execution " ++ "abc" ++ " is failed. "
                  ++ reason_of (poll (example_handle [mkStatus "CANCELLED" None])
                                  [] (k - 1))))
          \/ (State (poll (example_handle [mkStatus "CANCELLED" None]) [] (k - 1))
              = "CANCELLED"
              /\ Exception "Athena execution abc is canceled. No reason is given."
                 = Exception ("Athena execution " ++ "abc" ++ " is canceled. "
                     ++ reason_of (poll (example_handle [mkStatus "CANCELLED" None])
                                     [] (k - 1))))))
  \/ ((forall j, (j < Z.to_nat 2)%nat ->
         in_progress (poll (example_handle [mkStatus "CANCELLED" None]) [] j)
         = true)
      /\ Exception "Athena execution abc is canceled. No reason is given."
         = Exception ("Athena execution " ++ "abc" ++ " is not processed in "
                        ++ str_int 2 ++ " seconds.")).
Proof.
  exact (wait_raises_for_a_cause 2
           (example_handle [mkStatus "CANCELLED" None]) []
           (Exception "Athena execution abc is canceled. No reason is given.")
           (example_handle [mkStatus "CANCELLED" None], [EvStatus "abc"])
           eq_refl).
Defined.

Lemma wait_success_with_longer_timeout_witness :
  wait 20 (example_handle example_script, [])
  = (inr tt, (confirmed (example_handle example_script),
              [EvStatus "abc"; EvSleep 1; EvStatus "abc"])).
Proof.
  exact (wait_success_with_longer_timeout 2 20
           (example_handle example_script) [] _ eq_refl ltac:(lia)).
Defined.

Lemma get_result_fetches_once_witness :
  get_result 3 (example_handle example_script, [])
  = (inr no_results,
     (confirmed (example_handle example_script),
      [EvStatus "abc"; EvSleep 1; EvStatus "abc"; EvResults "abc"])).
Proof.
  exact (proj1 (get_result_fetches_once 3 (example_handle example_script)
                  (confirmed (example_handle example_script)) []
                  [EvStatus "abc"; EvSleep 1; EvStatus "abc"] eq_refl)).
Defined.

Lemma get_result_raises_without_fetching_witness :
  get_result 1 (example_handle [], [])
  = (inl (Exception "Athena execution abc is not processed in 1 seconds."),
     (example_handle [], [EvStatus "abc"])).
Proof.
  exact (proj1 (get_result_raises_without_fetching 1 (example_handle []) []
                  (Exception "Athena execution abc is not processed in 1 seconds.")
                  (example_handle [], [EvStatus "abc"]) eq_refl)).
Defined.

Lemma get_result_again_fetches_again_witness :
  get_result 0
    (confirmed (example_handle example_script),
     [EvStatus "abc"; EvSleep 1; EvStatus "abc"; EvResults "abc"])
  = (inr no_results,
     (confirmed (example_handle example_script),
      [EvStatus "abc"; EvSleep 1; EvStatus "abc"; EvResults "abc";
       EvResults "abc"])).
Proof.
  exact (get_result_again_fetches_again 3 0 (example_handle example_script)
           (confirmed (example_handle example_script)) []
           [EvStatus "abc"; EvSleep 1; EvStatus "abc"; EvResults "abc"]
           no_results eq_refl).
Defined.

Lemma execute_sync_nonpositive_timeout_witness :
  execute_sync (example_athena no_results) "msck repair table t" 0 []
  = (inl (Exception
            "Athena execution execution-0 is not processed in 0 seconds."),
     [EvStart "msck repair table t" "db" "s3://out"]).
Proof.
  exact (execute_sync_nonpositive_timeout (example_athena no_results)
           "msck repair table t" 0 [] ltac:(lia)).
Defined.

Lemma execute_sync_succeeds_witness :
  execute_sync (example_athena no_results) "msck repair table t" 20 []
  = (inr tt,
     [EvStart "msck repair table t" "db" "s3://out";
      EvStatus "execution-0"; EvSleep 1; EvStatus "execution-0"]).
Proof.
  exact (execute_sync_succeeds (example_athena no_results)
           "msck repair table t" 20 2 []
           ltac:(lia) ltac:(lia)
           ltac:(intros [|j] Hj; [reflexivity | lia])
           eq_refl).
Defined.

Lemma execute_select_null_cell_witness :
  fst (_execute_select (example_athena null_cell_results) "select a, b from t" [])
  = inl (KeyError "VarCharValue").
Proof.
  pose proof (execute_select_null_cell
                (example_athena null_cell_results) "select a, b from t" []
                _ _ _ _ eq_refl eq_refl
                ltac:(apply Exists_cons_tl, Exists_cons_hd,
                        Exists_cons_tl, Exists_cons_hd; reflexivity)) as E.
  rewrite E. reflexivity.
Defined.

Lemma execute_select_empty_result_witness :
  fst (_execute_select (example_athena no_results) "alter table t drop" [])
  = inl (IndexError "list index out of range").
Proof.
  pose proof (execute_select_empty_result
                (example_athena no_results) "alter table t drop" []
                _ _ _ _ eq_refl eq_refl eq_refl) as [E _].
  rewrite E. reflexivity.
Defined.

Lemma execute_select_propagates_wait_error_witness :
  _execute_select
    (scripted_athena [mkStatus "FAILED" (Some "TABLE_NOT_FOUND")] example_results)
    "select a, b from t" []
  = (inl (Exception "Athena execution execution-0 is failed. TABLE_NOT_FOUND"),
     [EvStart "select a, b from t" "db" "s3://out"; EvStatus "execution-0"]).
Proof.
  pose proof (execute_select_propagates_wait_error
                (scripted_athena [mkStatus "FAILED" (Some "TABLE_NOT_FOUND")]
                   example_results)
                "select a, b from t" [] _ _ _ _ eq_refl eq_refl) as [E _].
  rewrite E. reflexivity.
Defined.


Lemma get_count_returns_the_count_witness :
  fst (get_count (example_athena count_results) []) = inr 42.
Proof.
  pose proof (get_count_returns_the_count
                (example_athena count_results) []
                _ _ _ _ ["_col0"] 42 [] []
                eq_refl eq_refl eq_refl) as E.
  rewrite E. reflexivity.
Defined.

Lemma get_count_empty_row_witness :
  fst (get_count (example_athena empty_row_results) [])
  = inl (IndexError "list index out of range").
Proof.
  pose proof (get_count_empty_row
                (example_athena empty_row_results) []
                _ _ _ _ ["_col0"] []
                eq_refl eq_refl eq_refl) as E.
  rewrite E. reflexivity.
Defined.

Lemma get_some_distinct_columns_witness :
  fst (get_some (example_athena example_results) [])
  = inr [[("a", "1"); ("b", "x")]].
Proof.
  pose proof (get_some_distinct_columns
                (example_athena example_results) []
                _ _ _ _ ["a"; "b"] [["1"; "x"]]
                eq_refl eq_refl eq_refl
                ltac:(repeat constructor; cbn; intuition discriminate))
    as [E _].
  rewrite E. reflexivity.
Defined.

Lemma get_some_last_column_wins_witness :
  exists mappings,
    fst (get_some (example_athena twice_a_results) []) = inr mappings
    /\ forall mapping,
         nth_error mappings 0 = Some mapping ->
         dict_get "a" mapping = Some "3".
Proof.
  destruct (get_some_last_column_wins
              (example_athena twice_a_results) []
              _ _ _ _ ["a"; "b"; "a"] [["1"; "2"; "3"]]
              eq_refl eq_refl eq_refl) as (mappings & E & _ & H).
  exists mappings. split; [now rewrite E|].
  intros mapping Hm.
  exact (H 0%nat ["1"; "2"; "3"] mapping "a" eq_refl Hm).
Defined.
